(** * gce_metadata_server: a model of [main.go]

    The program is a small HTTP server that emulates the GCE metadata
    endpoint.  This file embeds its package-level state (the [cfg] flags,
    the [creds] pointer, [customAttributeMap], [tokenMutex] and the process
    environment), the credential and identity functions, the attribute
    loader and the request handlers of [main.go], and proves properties of
    them.

    Conventions.
    - A Go [string] is a [string] (a sequence of bytes); an [error] is its
      message; a [(T, error)] return is a [result]; a nil [*T] is [None].
    - What the process reads from outside (the identity provider behind an
      [oauth2.TokenSource], the clock, the file system) and the library
      functions whose code is not part of the repository ([encoding/json],
      [google.JWTConfigFromJSON], ...) are the fields of one record,
      [External]; every theorem quantifies over it.
    - A call that leaves the process appends a [Call] to the world's log,
      and the answer it receives may depend on how many calls were made
      before it, so two fetches from one source need not return one token.
    - [glog] and [fmt.Printf] output is not part of the state.
    - [int] is 64 bits wide. *)

From Stdlib Require Import ZArith Lia Ascii String.
From stdpp Require Import base option strings gmap list pretty.

Local Open Scope string_scope.
Local Open Scope Z_scope.

(** ** Go values *)

(** A Go [error] value, by its message. *)
Definition error := string.

(** A [(T, error)] pair of which exactly one side is meaningful. *)
Inductive result (A : Type) : Type :=
| Ok (a : A)
| Err (e : error).
Arguments Ok {A} a.
Arguments Err {A} e.

(** How a call ends: it returns, it panics (a nil pointer dereference, an
    index out of range), or it ends the process with [os.Exit]. *)
Inductive outcome (A : Type) : Type :=
| Return (a : A)
| Panic
| Exit (code : Z).
Arguments Return {A} a.
Arguments Panic {A}.
Arguments Exit {A} code.

(** The one-byte string of a line feed. *)
Definition LF : string := String "010"%char EmptyString.

(** [s != ""] *)
Definition nonempty (s : string) : bool := negb (String.eqb s "").

(** [strings.Split(s, sep)] for a separator of one byte: the fields of [s]
    between the separators; the split of the empty string is one empty
    field. *)
Fixpoint Split (s : string) (sep : ascii) : list string :=
  match s with
  | EmptyString => [EmptyString]
  | String c rest =>
      if Ascii.eqb c sep then EmptyString :: Split rest sep
      else match Split rest sep with
           | field :: fields => String c field :: fields
           | [] => [String c EmptyString]
           end
  end.

(** ** Package [time] *)

Module time.

(** A [time.Duration]: a count of nanoseconds in an [int64]. *)
Definition Duration := Z.
Definition minDuration : Duration := - 2 ^ 63.
Definition maxDuration : Duration := 2 ^ 63 - 1.
Definition Second : Duration := 1000000000.

(** A [time.Time], as the nanoseconds of its wall clock elapsed since the
    zero [Time] (January 1, year 1, 00:00:00 UTC).  Monotonic readings are
    left out: [Sub] uses them only when both operands carry one, and the
    program subtracts [time.Now().In(loc)], from which [In] has removed
    it. *)
Definition Time := Z.
Definition zero : Time := 0.

(** Two's complement wrap-around of an [int64] result. *)
Definition wrap64 (z : Z) : Z := (z + 2 ^ 63) mod 2 ^ 64 - 2 ^ 63.

(** [t.Sub(u)]: the duration [t - u], or the minimum (maximum) duration
    when the difference is below (above) what a [Duration] holds. *)
Definition Sub (t u : Time) : Duration :=
  if t - u <? minDuration then minDuration
  else if maxDuration <? t - u then maxDuration
  else t - u.

(** [lessThanHalf(x, y)]: [uint64(x) + uint64(x) < uint64(y)]. *)
Definition lessThanHalf (x y : Duration) : bool :=
  ((x mod 2 ^ 64 + x mod 2 ^ 64) mod 2 ^ 64) <? y mod 2 ^ 64.

(** [d.Round(m)]: [d] rounded to the nearest multiple of [m], halfway
    values away from zero, the minimum (maximum) duration when the
    rounded value does not fit. *)
Definition Round (d m : Duration) : Duration :=
  if m <=? 0 then d
  else
    let r := Z.rem d m in
    if d <? 0 then
      let r := - r in
      if lessThanHalf r m then wrap64 (d + r)
      else
        let d1 := wrap64 (d - m + r) in
        if d1 <? d then d1 else minDuration
    else
      if lessThanHalf r m then wrap64 (d - r)
      else
        let d1 := wrap64 (d + m - r) in
        if d <? d1 then d1 else maxDuration.

(** [int(d.Seconds())].  [Seconds] is
    [float64(d / Second) + float64(d % Second) / 1e9] and the conversion
    to [int] drops the fraction.  The quotient is below [2 ^ 34] in
    absolute value, so [float64] holds it exactly, and adding a fraction
    that stays at least [1e-6] away from [-1] and [1] cannot reach the next
    integer: that is the case of every value [Round] returns for
    [Second] (a multiple of [Second], or one of the two extreme
    durations, whose remainders are [-854775808] and [854775807]).  For
    those the result is the quotient truncated toward zero. *)
Definition SecondsInt (d : Duration) : Z := Z.quot d Second.

End time.

(** Writes the two powers of two of [int64] arithmetic as numerals, for
    [lia]. *)
Ltac int64_consts :=
  change (2 ^ 63) with 9223372036854775808 in *;
  change (2 ^ 64) with 18446744073709551616 in *.

(** ** Packages [oauth2] and [google] *)

Module oauth2.

(** [oauth2.Token], the fields the program reads or sets. *)
Record Token := {
  AccessToken : string;
  TokenType : string;
  Expiry : time.Time
}.

(** The [oauth2.TokenSource] values the program builds.
    [StaticTokenSource] always returns its token; the token of every other
    source comes from the identity provider. *)
Inductive TokenSource :=
| StaticTokenSource (t : Token)
    (* oauth2.StaticTokenSource(t) *)
| ImpersonatedCredentials (TargetPrincipal : string) (Scopes : list string)
    (* impersonate.CredentialsTokenSource *)
| JSONCredentials (data : string) (scopes : list string)
    (* the TokenSource of google.CredentialsFromJSON(ctx, data, scopes...) *)
| ImpersonatedIDToken (TargetPrincipal Audience : string) (IncludeEmail : bool)
    (* impersonate.IDTokenSource *)
| JSONIDToken (audience : string) (credentialsJSON : string).
    (* idtoken.NewTokenSource(ctx, audience, idtoken.WithCredentialsJSON(json)) *)

End oauth2.

Module google.

(** [google.Credentials], the fields the program reads or sets. *)
Record Credentials := {
  ProjectID : string;
  TokenSource : oauth2.TokenSource;
  JSON : string
}.

End google.

(** ** Package-level declarations of [main.go] *)

Definition emailScope : string := "https://www.googleapis.com/auth/userinfo.email".
Definition googleProjectID : string := "GOOGLE_PROJECT_ID".
Definition googleNumericProjectID : string := "GOOGLE_NUMERIC_PROJECT_ID".
Definition googleAccessToken : string := "GOOGLE_ACCESS_TOKEN".
Definition googleIDToken : string := "GOOGLE_ID_TOKEN".
Definition googleAccountEmail : string := "GOOGLE_ACCOUNT_EMAIL".

Record serverConfig := {
  flPort : string;
  flnumericProjectID : string;
  fltokenScopes : string;
  flprojectID : string;
  flserviceAccountEmail : string;
  flserviAccountFile : string;
  flcustomAttributeFile : string;
  flImpersonate : bool
}.

Record metadataToken := {
  AccessToken : string;
  ExpiresIn : Z;
  TokenType : string
}.

Record serviceAccountDetails := {
  Aliases : string;
  Email : string;
  Scopes : string
}.

(** A call that leaves the process. *)
Inductive Call :=
| CallToken (ts : oauth2.TokenSource)
    (* ts.Token() on a source backed by the identity provider *)
| CallNewTokenSource (ts : oauth2.TokenSource).
    (* the construction of an identity-token source *)

(** The state of the process: the environment [os.Getenv] reads, the
    package-level variables, and the log of calls made so far. *)
Record World := {
  environ : gmap string string;
  cfg : serverConfig;
  creds : option google.Credentials;
  customAttributeMap : gmap string string;
  tokenMutex : bool;
  calls : list Call
}.

Definition set_creds (c : option google.Credentials) (w : World) : World :=
  {| environ := environ w; cfg := cfg w; creds := c;
     customAttributeMap := customAttributeMap w;
     tokenMutex := tokenMutex w; calls := calls w |}.

Definition set_customAttributeMap (m : gmap string string) (w : World) : World :=
  {| environ := environ w; cfg := cfg w; creds := creds w;
     customAttributeMap := m;
     tokenMutex := tokenMutex w; calls := calls w |}.

Definition set_tokenMutex (b : bool) (w : World) : World :=
  {| environ := environ w; cfg := cfg w; creds := creds w;
     customAttributeMap := customAttributeMap w;
     tokenMutex := b; calls := calls w |}.

Definition record_call (c : Call) (w : World) : World :=
  {| environ := environ w; cfg := cfg w; creds := creds w;
     customAttributeMap := customAttributeMap w;
     tokenMutex := tokenMutex w; calls := (calls w ++ [c])%list |}.

(** What lies outside [main.go].  The [nat] argument of a field is the
    number of calls logged before the one being answered. *)
Record External := {
  (* ts.Token() for a provider-backed source *)
  provider_Token : oauth2.TokenSource -> nat -> result oauth2.Token;
  (* impersonate.IDTokenSource and idtoken.NewTokenSource: the error, if any *)
  provider_NewTokenSource : oauth2.TokenSource -> nat -> option error;
  (* impersonate.CredentialsTokenSource at startup: the error, if any *)
  impersonate_CredentialsTokenSource : string -> list string -> option error;
  (* time.Now() *)
  time_Now : nat -> time.Time;
  (* os.Open followed by reading the file: its bytes *)
  os_Open : string -> result string;
  (* ioutil.ReadFile *)
  ioutil_ReadFile : string -> result string;
  (* json.NewDecoder(file).Decode(&data) for data of type map[string]string *)
  json_Decode : string -> result (gmap string string);
  (* json.Marshal of a *metadataToken and of a *serviceAccountDetails *)
  json_Marshal_metadataToken : metadataToken -> result string;
  json_Marshal_serviceAccountDetails : serviceAccountDetails -> result string;
  (* google.CredentialsFromJSON: the project ID found in the document *)
  google_CredentialsFromJSON : string -> list string -> result string;
  (* google.JWTConfigFromJSON(json, scope): the Email of the config *)
  google_JWTConfigFromJSON : string -> string -> result string
}.

(** [os.Getenv(key)]: the value, or the empty string when unset. *)
Definition Getenv (w : World) (key : string) : string :=
  default "" (environ w !! key).

(** ** Credential selection and identity (lines 162-191, 357-362) *)

Definition isEnvironmentOverrideSet (w : World) : bool :=
  nonempty (Getenv w googleAccessToken)
  && nonempty (Getenv w googleIDToken)
  && nonempty (Getenv w googleAccountEmail)
  && nonempty (Getenv w googleNumericProjectID)
  && nonempty (Getenv w googleProjectID).

Definition getProjectID (w : World) : outcome string :=
  if isEnvironmentOverrideSet w then Return (Getenv w googleProjectID)
  else if nonempty (flprojectID (cfg w)) then Return (flprojectID (cfg w))
  else match creds w with
       | Some c => Return (google.ProjectID c)
       | None => Panic
       end.

Definition getNumericProjectID (w : World) : string :=
  if isEnvironmentOverrideSet w then Getenv w googleNumericProjectID
  else flnumericProjectID (cfg w).

(** ** Packages [net/http], [mux] and [fmt] *)

Module http.

Definition StatusOK : Z := 200.
Definition StatusBadRequest : Z := 400.
Definition StatusForbidden : Z := 403.
Definition StatusNotFound : Z := 404.
Definition StatusInternalServerError : Z := 500.

(** [http.StatusText], on the codes the program uses; the text of an
    unknown code is empty. *)
Definition StatusText (code : Z) : string :=
  if code =? 200 then "OK"
  else if code =? 400 then "Bad Request"
  else if code =? 403 then "Forbidden"
  else if code =? 404 then "Not Found"
  else if code =? 500 then "Internal Server Error"
  else "".

(** What a handler is given of the request: [mux.Vars(r)] and
    [r.URL.Query()]. *)
Record Request := {
  Vars : gmap string string;
  Query : gmap string (list string)
}.

(** An [http.ResponseWriter]: its header map, the status line once
    written together with the headers that went out with it, and the body
    written so far. *)
Record ResponseWriter := {
  Header : gmap string (list string);
  wrote : option (Z * gmap string (list string));
  body : string
}.

Definition NewResponseWriter : ResponseWriter :=
  {| Header := ∅; wrote := None; body := "" |}.

(** [w.Header().Set(key, value)] *)
Definition Header_Set (key value : string) (w : ResponseWriter) : ResponseWriter :=
  {| Header := <[key := [value]]> (Header w); wrote := wrote w; body := body w |}.

(** [w.Header().Add(key, value)] *)
Definition Header_Add (key value : string) (w : ResponseWriter) : ResponseWriter :=
  {| Header := <[key := (default [] (Header w !! key) ++ [value])%list]> (Header w);
     wrote := wrote w; body := body w |}.

(** [w.WriteHeader(code)]: the first call fixes the status and the headers;
    a later one is ignored. *)
Definition WriteHeader (code : Z) (w : ResponseWriter) : ResponseWriter :=
  match wrote w with
  | Some _ => w
  | None => {| Header := Header w; wrote := Some (code, Header w); body := body w |}
  end.

(** [w.Write(data)]: writes the status line first when none was written. *)
Definition Write (data : string) (w : ResponseWriter) : ResponseWriter :=
  let w := WriteHeader StatusOK w in
  {| Header := Header w; wrote := wrote w; body := body w +:+ data |}.

(** [http.Error(w, error, code)] *)
Definition Error (w : ResponseWriter) (error : string) (code : Z) : ResponseWriter :=
  let w := Header_Set "Content-Type" "text/plain; charset=utf-8" w in
  let w := Header_Set "X-Content-Type-Options" "nosniff" w in
  let w := WriteHeader code w in
  Write (error +:+ LF) w.

(** The status code the client receives: the one written, or 200 when the
    handler returned without writing any. *)
Definition StatusCode (w : ResponseWriter) : Z :=
  match wrote w with
  | Some (code, _) => code
  | None => StatusOK
  end.

End http.

(** [mux.Vars(r)[name]]: a missing key reads as the empty string. *)
Definition vars (r : http.Request) (name : string) : string :=
  default "" (http.Vars r !! name).

(** [fmt.Fprint(w, s)] for a string and for an [int]. *)
Definition Fprint (w : http.ResponseWriter) (s : string) : http.ResponseWriter :=
  http.Write s w.
Definition Fprint_int (w : http.ResponseWriter) (n : Z) : http.ResponseWriter :=
  http.Write (pretty n) w.

(** ** Tokens (lines 90-160) *)

Section Server.

Variable E : External.

(** [time.Now()] *)
Definition Now (w : World) : time.Time := time_Now E (length (calls w)).

(** [ts.Token()] *)
Definition Token (ts : oauth2.TokenSource) (w : World) : result oauth2.Token * World :=
  match ts with
  | oauth2.StaticTokenSource t => (Ok t, w)
  | _ => (provider_Token E ts (length (calls w)), record_call (CallToken ts) w)
  end.

(** [tokenMutex.Lock()], once the mutex has been acquired, and
    [tokenMutex.Unlock()]. *)
Definition Lock (w : World) : World := set_tokenMutex true w.
Definition Unlock (w : World) : World := set_tokenMutex false w.

(** [getAccessToken] between [tokenMutex.Lock()] and the deferred
    [tokenMutex.Unlock()] (lines 94-124). *)
Definition getAccessToken_body (w : World)
  : outcome (metadataToken * option error) * World :=
  let w :=
    if isEnvironmentOverrideSet w then
      let ts := oauth2.StaticTokenSource
                  {| oauth2.AccessToken := Getenv w googleAccessToken;
                     oauth2.TokenType := "Bearer";
                     oauth2.Expiry := time.zero |} in
      set_creds (Some {| google.ProjectID := Getenv w googleProjectID;
                         google.TokenSource := ts;
                         google.JSON := "" |}) w
    else w in
  match creds w with
  | None => (Panic, w)
  | Some c =>
      let '(r, w) := Token (google.TokenSource c) w in
      match r with
      | Err err =>
          (Return ({| AccessToken := ""; ExpiresIn := 0; TokenType := "" |}, Some err), w)
      | Ok tok =>
          let now := Now w in
          let diff := time.Sub (oauth2.Expiry tok) now in
          (Return ({| AccessToken := oauth2.AccessToken tok;
                      ExpiresIn := time.SecondsInt (time.Round diff time.Second);
                      TokenType := oauth2.TokenType tok |}, None), w)
      end
  end.

Definition getAccessToken (w : World)
  : outcome (metadataToken * option error) * World :=
  let '(r, w) := getAccessToken_body (Lock w) in
  (r, Unlock w).

(** [getIDToken] between [tokenMutex.Lock()] and the deferred
    [tokenMutex.Unlock()] (lines 131-159). *)
Definition getIDToken_body (targetAudience : string) (w : World)
  : outcome (string * option error) * World :=
  if isEnvironmentOverrideSet w then (Return (Getenv w googleIDToken, None), w)
  else
    let idTokenSource :=
      if flImpersonate (cfg w) then
        Some (oauth2.ImpersonatedIDToken (flserviceAccountEmail (cfg w)) targetAudience true)
      else
        match creds w with
        | Some c => Some (oauth2.JSONIDToken targetAudience (google.JSON c))
        | None => None
        end in
    match idTokenSource with
    | None => (Panic, w)
    | Some idTokenSource =>
        let err := provider_NewTokenSource E idTokenSource (length (calls w)) in
        let w := record_call (CallNewTokenSource idTokenSource) w in
        match err with
        | Some _ => (Return ("", Some "unable to get id_token"), w)
        | None =>
            let '(r, w) := Token idTokenSource w in
            match r with
            | Err err => (Return ("", Some err), w)
            | Ok tok => (Return (oauth2.AccessToken tok, None), w)
            end
        end
    end.

Definition getIDToken (targetAudience : string) (w : World)
  : outcome (string * option error) * World :=
  let '(r, w) := getIDToken_body targetAudience (Lock w) in
  (r, Unlock w).

Definition getServiceAccountEmail (w : World) : outcome string :=
  if isEnvironmentOverrideSet w then Return (Getenv w googleAccountEmail)
  else if nonempty (flserviceAccountEmail (cfg w)) then
    Return (flserviceAccountEmail (cfg w))
  else
    match creds w with
    | None => Panic
    | Some c =>
        match google_JWTConfigFromJSON E (google.JSON c) emailScope with
        | Err _ => Exit 1
        | Ok email => Return email
        end
    end.

(** ** The attribute store (lines 364-384) *)

Definition setCustomAttributes (customAttributesFile : string) (w : World) : World :=
  if String.eqb customAttributesFile "" then w
  else
    match os_Open E customAttributesFile with
    | Err _ => w
    | Ok file =>
        match json_Decode E file with
        | Err _ => w
        | Ok data => set_customAttributeMap data w
        end
    end.

(** ** Request handlers (lines 235-355) *)

(** A handler ends with the response it wrote and the state it left, or it
    panics or exits the process. *)
Definition handled : Type := outcome http.ResponseWriter * World.

Definition projectIDHandler (w : http.ResponseWriter) (r : http.Request) (st : World)
  : handled :=
  match getProjectID st with
  | Return id => (Return (Fprint w id), st)
  | Panic => (Panic, st)
  | Exit code => (Exit code, st)
  end.

Definition numericProjectIDHandler (w : http.ResponseWriter) (r : http.Request) (st : World)
  : handled :=
  (Return (Fprint w (getNumericProjectID st)), st).

Definition attributesHandler (w : http.ResponseWriter) (r : http.Request) (st : World)
  : handled :=
  match customAttributeMap st !! vars r "key" with
  | Some val => (Return (Fprint w val), st)
  | None => (Return (Fprint_int w http.StatusNotFound), st)
  end.

Definition listServiceAccountHandler (w : http.ResponseWriter) (r : http.Request) (st : World)
  : handled :=
  let w := http.Header_Add "Content-Type" "application/text" w in
  match getServiceAccountEmail st with
  | Return email => (Return (Fprint w ("default/" +:+ LF +:+ email +:+ "/" +:+ LF)), st)
  | Panic => (Panic, st)
  | Exit code => (Exit code, st)
  end.

(** The loop of lines 268-271 and 326-329: every field of the
    comma-separated scope list followed by a line feed. *)
Definition scopeLines (st : World) : string :=
  fold_left (fun scopes e => scopes +:+ e +:+ LF) (Split (fltokenScopes (cfg st)) ",") "".

(** The value handed to [json.Marshal] at lines 273-277. *)
Definition indexDetails (r : http.Request) (st : World) : outcome serviceAccountDetails :=
  let scopes := scopeLines st in
  match getServiceAccountEmail st with
  | Return email => Return {| Aliases := vars r "acct"; Email := email; Scopes := scopes |}
  | Panic => Panic
  | Exit code => Exit code
  end.

Definition getServiceAccountIndexHandler
  (w : http.ResponseWriter) (r : http.Request) (st : World) : handled :=
  match indexDetails r st with
  | Return details =>
      match json_Marshal_serviceAccountDetails E details with
      | Err _ =>
          let w := http.Error w (http.StatusText http.StatusInternalServerError)
                     http.StatusInternalServerError in
          (Return (http.Header_Set "Content-Type" "applicaiton/text" w), st)
      | Ok js =>
          let w := http.Header_Set "Content-Type" "application/json" w in
          (Return (http.Write js w), st)
      end
  | Panic => (Panic, st)
  | Exit code => (Exit code, st)
  end.

Definition notFound (w : http.ResponseWriter) (r : http.Request) (st : World) : handled :=
  (Return (http.Error w (http.StatusText http.StatusNotFound) http.StatusNotFound), st).

Definition getServiceAccountHandler
  (w : http.ResponseWriter) (r : http.Request) (st : World) : handled :=
  let key := vars r "key" in
  if String.eqb key "aliases" then
    let w := http.Header_Set "Content-Type" "application/text" w in
    (Return (Fprint w "default"), st)
  else if String.eqb key "email" then
    let w := http.Header_Set "Content-Type" "application/text" w in
    match getServiceAccountEmail st with
    | Return email => (Return (Fprint w email), st)
    | Panic => (Panic, st)
    | Exit code => (Exit code, st)
    end
  else if String.eqb key "identity" then
    match http.Query r !! "audience" with
    | None =>
        let w := http.Error w (http.StatusText http.StatusBadRequest)
                   http.StatusBadRequest in
        let w := http.Header_Set "Content-Type" "text/html" w in
        (Return (Fprint w "non-empty audience parameter required"), st)
    | Some k =>
        match k with
        | [] => (Panic, st)
        | k0 :: _ =>
            let '(res, st) := getIDToken k0 st in
            match res with
            | Return (_, Some _) =>
                let w := http.Error w (http.StatusText http.StatusInternalServerError)
                           http.StatusInternalServerError in
                (Return (http.Header_Set "Content-Type" "text/html" w), st)
            | Return (idtok, None) =>
                let w := http.Header_Set "Content-Type" "text/html" w in
                (Return (Fprint w idtok), st)
            | Panic => (Panic, st)
            | Exit code => (Exit code, st)
            end
        end
    end
  else if String.eqb key "scopes" then
    let scopes := scopeLines st in
    let w := http.Header_Set "Content-Type" "application/text" w in
    (Return (Fprint w scopes), st)
  else if String.eqb key "token" then
    let '(res, st) := getAccessToken st in
    match res with
    | Return (_, Some _) =>
        let w := http.Error w (http.StatusText http.StatusInternalServerError)
                   http.StatusInternalServerError in
        (Return (http.Header_Set "Content-Type" "applicaiton/text" w), st)
    | Return (tok, None) =>
        match json_Marshal_metadataToken E tok with
        | Err _ =>
            let w := http.Error w (http.StatusText http.StatusInternalServerError)
                       http.StatusInternalServerError in
            (Return (http.Header_Set "Content-Type" "applicaiton/text" w), st)
        | Ok js =>
            let w := http.Header_Set "Content-Type" "application/json" w in
            (Return (http.Write js w), st)
        end
    | Panic => (Panic, st)
    | Exit code => (Exit code, st)
    end
  else
    let w := http.Error w (http.StatusText http.StatusNotFound) http.StatusNotFound in
    (Return (http.Header_Set "Content-Type" "text/html; charset=UTF-8" w), st).

(** ** Startup (lines 438-485) *)

(** The package-level variables as initialised at lines 46-55, for a given
    environment and given flags. *)
Definition initial (env : gmap string string) (c : serverConfig) : World :=
  {| environ := env; cfg := c; creds := None;
     customAttributeMap := {[ "k1" := "v1"; "k2" := "v2" ]};
     tokenMutex := false; calls := [] |}.

(** The selection of the credential source in [main] (lines 438-483).
    [argError] exits with code -1; the other fatal errors exit with 1. *)
Definition resolve (w : World) : outcome World :=
  if isEnvironmentOverrideSet w then Return w
  else if flImpersonate (cfg w) then
    if String.eqb (flnumericProjectID (cfg w)) ""
       || String.eqb (flprojectID (cfg w)) ""
       || String.eqb (flserviceAccountEmail (cfg w)) ""
    then Exit (-1)
    else
      let s := Split (fltokenScopes (cfg w)) "," in
      match impersonate_CredentialsTokenSource E (flserviceAccountEmail (cfg w)) s with
      | Some _ => Exit 1
      | None =>
          let ts := oauth2.ImpersonatedCredentials (flserviceAccountEmail (cfg w)) s in
          Return (set_creds (Some {| google.ProjectID := flprojectID (cfg w);
                                     google.TokenSource := ts;
                                     google.JSON := "" |}) w)
      end
  else
    if String.eqb (flserviAccountFile (cfg w)) "" then Exit (-1)
    else
      match ioutil_ReadFile E (flserviAccountFile (cfg w)) with
      | Err _ => Exit 1
      | Ok data =>
          let s := Split (fltokenScopes (cfg w)) "," in
          match google_CredentialsFromJSON E data s with
          | Err _ => Exit 1
          | Ok projectID =>
              Return (set_creds (Some {| google.ProjectID := projectID;
                                         google.TokenSource := oauth2.JSONCredentials data s;
                                         google.JSON := data |}) w)
          end
      end.

(** [main] up to the point where the server starts to listen. *)
Definition startup (env : gmap string string) (c : serverConfig) : outcome World :=
  match resolve (initial env c) with
  | Return w => Return (setCustomAttributes (flcustomAttributeFile (cfg w)) w)
  | Panic => Panic
  | Exit code => Exit code
  end.

(** ** Concurrent requests

    The server runs every request in a goroutine of its own.  A goroutine
    that serves a token request goes through four points: before
    [tokenMutex.Lock()]; holding the mutex, the body not yet run; the body
    done (returned or panicked), the deferred [tokenMutex.Unlock()]
    pending; and returned.  [Lock] cannot be passed while the mutex is
    held. *)

Inductive tokenRequest :=
| AccessTokenRequest
| IDTokenRequest (targetAudience : string).

Inductive tokenReply :=
| AccessTokenReply (r : outcome (metadataToken * option error))
| IDTokenReply (r : outcome (string * option error)).

Inductive point :=
| AtLock
| Fetching
| AtUnlock (r : tokenReply)
| Returned (r : tokenReply).

Record goroutine := {
  request : tokenRequest;
  at_point : point
}.

(** The code between [Lock] and [Unlock] of the function a request calls. *)
Definition body (q : tokenRequest) (w : World) : tokenReply * World :=
  match q with
  | AccessTokenRequest =>
      let '(r, w) := getAccessToken_body w in (AccessTokenReply r, w)
  | IDTokenRequest targetAudience =>
      let '(r, w) := getIDToken_body targetAudience w in (IDTokenReply r, w)
  end.

(** The function a request calls, from call to return. *)
Definition serve (q : tokenRequest) (w : World) : tokenReply * World :=
  match q with
  | AccessTokenRequest =>
      let '(r, w) := getAccessToken w in (AccessTokenReply r, w)
  | IDTokenRequest targetAudience =>
      let '(r, w) := getIDToken targetAudience w in (IDTokenReply r, w)
  end.

(** The goroutine is between [Lock] and [Unlock]. *)
Definition holds (g : goroutine) : bool :=
  match at_point g with
  | Fetching | AtUnlock _ => true
  | AtLock | Returned _ => false
  end.

(** One step of a goroutine; [None] when it cannot move (it waits for the
    mutex, or it has returned). *)
Definition step (g : goroutine) (w : World) : option (goroutine * World) :=
  match at_point g with
  | AtLock =>
      if tokenMutex w then None
      else Some ({| request := request g; at_point := Fetching |}, Lock w)
  | Fetching =>
      let '(r, w) := body (request g) w in
      Some ({| request := request g; at_point := AtUnlock r |}, w)
  | AtUnlock r =>
      Some ({| request := request g; at_point := Returned r |}, Unlock w)
  | Returned _ => None
  end.

Record system := {
  world : World;
  goroutines : list goroutine
}.

(** The scheduler lets goroutine [i] take a step; nothing happens when
    there is no such goroutine or it cannot move. *)
Definition schedule (s : system) (i : nat) : system :=
  match goroutines s !! i with
  | Some g =>
      match step g (world s) with
      | Some (g', w') => {| world := w'; goroutines := <[i := g']> (goroutines s) |}
      | None => s
      end
  | None => s
  end.

Definition run (sched : list nat) (s : system) : system :=
  fold_left schedule sched s.

(** The requests as they arrive, none started. *)
Definition spawn (w : World) (qs : list tokenRequest) : system :=
  {| world := w;
     goroutines := map (fun q => {| request := q; at_point := AtLock |}) qs |}.

(** How many goroutines are between [Lock] and [Unlock]. *)
Definition holders (s : system) : nat :=
  length (List.filter holds (goroutines s)).

(** The invariant of the mutex: it is held exactly when one goroutine is
    between [Lock] and [Unlock], and then no second one is. *)
Definition mutex_invariant (s : system) : Prop :=
  holders s = Nat.b2n (tokenMutex (world s)).

End Server.

(** ** The middleware and the root handler (lines 193-233)

    The handlers above read a request through [mux.Vars] and the parsed
    query only.  The middleware and the root handler read more of the
    [*http.Request]: its [Host], its [RequestURI], the path of its URL and
    its header. *)

Definition hostHeaders : list string :=
  ["metadata"; "metadata.google.internal"; "169.254.169.254"].

Definition isLower (c : ascii) : bool :=
  (97 <=? nat_of_ascii c)%nat && (nat_of_ascii c <=? 122)%nat.
Definition isUpper (c : ascii) : bool :=
  (65 <=? nat_of_ascii c)%nat && (nat_of_ascii c <=? 90)%nat.
Definition isDigit (c : ascii) : bool :=
  (48 <=? nat_of_ascii c)%nat && (nat_of_ascii c <=? 57)%nat.

(** [validHeaderFieldByte]: the bytes of an HTTP token. *)
Definition validHeaderFieldByte (c : ascii) : bool :=
  isLower c || isUpper c || isDigit c
  || existsb (Ascii.eqb c)
       ["!"; "#"; "$"; "%"; "&"; "'"; "*"; "+"; "-"; "."; "^"; "_"; "`"; "|"; "~"]%char.

(** The second loop of [canonicalMIMEHeaderKey]: the first letter and every
    letter after a dash in upper case, the other letters in lower case. *)
Fixpoint canonicalCase (upper : bool) (s : string) : string :=
  match s with
  | EmptyString => EmptyString
  | String c rest =>
      let c :=
        if upper && isLower c then ascii_of_nat (nat_of_ascii c - 32)
        else if negb upper && isUpper c then ascii_of_nat (nat_of_ascii c + 32)
        else c in
      String c (canonicalCase (Ascii.eqb c "-") rest)
  end.

Fixpoint allValid (s : string) : bool :=
  match s with
  | EmptyString => true
  | String c rest => validHeaderFieldByte c && allValid rest
  end.

(** [textproto.CanonicalMIMEHeaderKey]: a key with a byte that is no token
    byte is returned as it is. *)
Definition CanonicalMIMEHeaderKey (s : string) : string :=
  if allValid s then canonicalCase true s else s.

(** [h.Get(key)] on an [http.Header]: the first value under the canonical
    key, or the empty string. *)
Definition Header_Get (h : gmap string (list string)) (key : string) : string :=
  match h !! CanonicalMIMEHeaderKey key with
  | Some (v :: _) => v
  | _ => ""
  end.

(** An [*http.Request] as the middleware and the root handler read it;
    [routed] is what the handlers above are given of it. *)
Record Incoming := {
  Host : string;
  RequestURI : string;
  URL_Path : string;
  ReqHeader : gmap string (list string);
  routed : http.Request
}.

(** An [http.Handler]. *)
Definition Handler : Type :=
  http.ResponseWriter -> Incoming -> World -> handled.

(** [http.HandlerFunc(f)] for one of the handlers above. *)
Definition HandlerFunc
  (f : http.ResponseWriter -> http.Request -> World -> handled) : Handler :=
  fun w r st => f w (routed r) st.

(** [http.NotFound(w, r)] *)
Definition http_NotFound (w : http.ResponseWriter) : http.ResponseWriter :=
  http.Error w "404 page not found" http.StatusNotFound.

(** The loop of lines 202-207. *)
Definition hasHostHeader (r : Incoming) : bool :=
  fold_left (fun has a => if String.eqb a (Host r) then true else has) hostHeaders false.

Definition checkMetadataHeaders (next : Handler) : Handler :=
  fun w r st =>
    let w := http.Header_Add (CanonicalMIMEHeaderKey "Server") "Metadata Server for VM" w in
    let w := http.Header_Add (CanonicalMIMEHeaderKey "Metadata-Flavor") "Google" w in
    let w := http.Header_Add (CanonicalMIMEHeaderKey "X-XSS-Protection") "0" w in
    let w := http.Header_Add (CanonicalMIMEHeaderKey "X-Frame-Options") "0" w in
    if negb (hasHostHeader r) then
      let w := http.Error w (http.StatusText http.StatusForbidden) http.StatusForbidden in
      (Return (http.Header_Set "Content-Type" "text/html; charset=UTF-8" w), st)
    else
      let flavor := Header_Get (ReqHeader r) "Metadata-Flavor" in
      if String.eqb flavor "" && negb (String.eqb (RequestURI r) "/") then
        let w := http.Error w (http.StatusText http.StatusForbidden) http.StatusForbidden in
        (Return (http.Header_Set "Content-Type" "text/html; charset=UTF-8" w), st)
      else next w r st.

Definition rootHandler : Handler :=
  fun w r st =>
    if negb (String.eqb (URL_Path r) "/") then (Return (http_NotFound w), st)
    else (Return (Fprint w "ok"), st).

(** ** The route table (lines 411-418)

    Which route a request selects is the router's matter and is not
    modelled; a [route] is the entry the router has selected, [Unmatched]
    standing for [r.NotFoundHandler]. *)

Inductive route :=
| ProjectIDRoute          (* /computeMetadata/v1/project/project-id *)
| NumericProjectIDRoute   (* /computeMetadata/v1/project/numeric-project-id *)
| AttributesRoute         (* /computeMetadata/v1/project/attributes/{key} *)
| ServiceAccountsRoute    (* /computeMetadata/v1/instance/service-accounts/ *)
| ServiceAccountRoute     (* /computeMetadata/v1/instance/service-accounts/{acct}/ *)
| ServiceAccountKeyRoute  (* /computeMetadata/v1/instance/service-accounts/{acct}/{key} *)
| RootRoute               (* / *)
| Unmatched.

Section Routes.

Variable E : External.

(** The handler registered for a route, before the middleware wraps it. *)
Definition registered (rt : route) : Handler :=
  match rt with
  | ProjectIDRoute => HandlerFunc projectIDHandler
  | NumericProjectIDRoute => HandlerFunc numericProjectIDHandler
  | AttributesRoute => HandlerFunc attributesHandler
  | ServiceAccountsRoute => HandlerFunc (listServiceAccountHandler E)
  | ServiceAccountRoute => HandlerFunc (getServiceAccountIndexHandler E)
  | ServiceAccountKeyRoute => HandlerFunc (getServiceAccountHandler E)
  | RootRoute => rootHandler
  | Unmatched => HandlerFunc notFound
  end.

(** The handler of a route as [main] registers it. *)
Definition routes (rt : route) : Handler :=
  checkMetadataHeaders (registered rt).

(** The state after a sequence of requests, each on a response writer of
    its own.  (A handler that panics is recovered by the server, which goes
    on serving with the state the handler left.) *)
Definition after (reqs : list (route * Incoming)) (st : World) : World :=
  fold_left (fun st q => snd (routes (fst q) http.NewResponseWriter (snd q) st)) reqs st.

End Routes.

(** What [url.Values] guarantees of a parsed query: a key that is present
    has at least one value. *)
Definition wellFormed (r : Incoming) : Prop :=
  http.Query (routed r) !! "audience" <> Some [].

(** The process can serve: the mutex is free, and there are credentials
    unless the override makes them unnecessary. *)
Definition ready (st : World) : Prop :=
  tokenMutex st = false
  /\ (isEnvironmentOverrideSet st = false -> exists c, creds st = Some c).

(** [strings.Join(fields, sep)] *)
Fixpoint Join (fields : list string) (sep : string) : string :=
  match fields with
  | [] => ""
  | [field] => field
  | field :: rest => field +:+ sep +:+ Join rest sep
  end.

(** The number of bytes of a string equal to [c]. *)
Fixpoint count (c : ascii) (s : string) : nat :=
  match s with
  | EmptyString => O
  | String c' rest => (if Ascii.eqb c' c then 1 else 0) + count c rest
  end.

(** The values that went out, or would go out, under a header key: those
    of the headers written with the status line, or of the header map
    while no status line has been written. *)
Definition SentHeader (w : http.ResponseWriter) (key : string) : list string :=
  match http.wrote w with
  | Some (_, h) => default [] (h !! key)
  | None => default [] (http.Header w !! key)
  end.

(** A string with every byte [old] replaced by [new]. *)
Fixpoint ReplaceByte (old new : ascii) (s : string) : string :=
  match s with
  | EmptyString => EmptyString
  | String c rest =>
      String (if Ascii.eqb c old then new else c) (ReplaceByte old new rest)
  end.


(** ** Sample inputs

    One environment outside the process, and a few configurations, at
    which the theorems below are instantiated. *)

(** The string of one double quote, and a string between double quotes. *)
Definition DQ : string := String "034"%char EmptyString.
Definition quoted (s : string) : string := DQ +:+ s +:+ DQ.

(** 2026-10-31 12:00:00 UTC *)
Definition sampleNow : time.Time := 63929044800000000000.

Definition keyJSON : string :=
  "{" +:+ quoted "type" +:+ ":" +:+ quoted "service_account" +:+ ","
      +:+ quoted "project_id" +:+ ":" +:+ quoted "key-project" +:+ ","
      +:+ quoted "client_email" +:+ ":" +:+ quoted "sa@key.example" +:+ "}".

Definition attrsJSON : string :=
  "{" +:+ quoted "a" +:+ ":" +:+ quoted "1" +:+ ","
      +:+ quoted "b" +:+ ":" +:+ quoted "2" +:+ "}".

Definition arrayJSON : string := "[1,2]".

(** A JSON string literal for text of printable ASCII other than [<], [>]
    and [&], in which only the quote, the backslash and the line feed need
    an escape. *)
Fixpoint sampleEscape (s : string) : string :=
  match s with
  | EmptyString => EmptyString
  | String c rest =>
      if Ascii.eqb c "034" then "\" +:+ DQ +:+ sampleEscape rest
      else if Ascii.eqb c "\" then "\\" +:+ sampleEscape rest
      else if Ascii.eqb c "010" then "\n" +:+ sampleEscape rest
      else String c (sampleEscape rest)
  end.

Definition sampleMember (name value : string) : string :=
  quoted name +:+ ":" +:+ value.

Definition sampleExternal : External :=
  {| provider_Token := fun ts n =>
       match ts with
       | oauth2.ImpersonatedIDToken _ aud _ | oauth2.JSONIDToken aud _ =>
           Ok {| oauth2.AccessToken := "idtoken:" +:+ aud;
                 oauth2.TokenType := "Bearer";
                 oauth2.Expiry := sampleNow + 3600 * time.Second |}
       | _ =>
           Ok {| oauth2.AccessToken := "ya29.provider";
                 oauth2.TokenType := "Bearer";
                 oauth2.Expiry := sampleNow + 3600 * time.Second |}
       end;
     provider_NewTokenSource := fun _ _ => None;
     impersonate_CredentialsTokenSource := fun _ _ => None;
     time_Now := fun n => sampleNow + Z.of_nat n * time.Second;
     os_Open := fun name =>
       if String.eqb name "attrs.json" then Ok attrsJSON
       else if String.eqb name "array.json" then Ok arrayJSON
       else Err ("open " +:+ name +:+ ": no such file or directory");
     ioutil_ReadFile := fun name =>
       if String.eqb name "key.json" then Ok keyJSON
       else Err ("open " +:+ name +:+ ": no such file or directory");
     json_Decode := fun file =>
       if String.eqb file attrsJSON then Ok {[ "a" := "1"; "b" := "2" ]}
       else Err "json: cannot unmarshal into Go value of type map[string]string";
     json_Marshal_metadataToken := fun t =>
       Ok ("{" +:+ sampleMember "access_token" (quoted (sampleEscape (AccessToken t)))
           +:+ "," +:+ sampleMember "expires_in" (pretty (ExpiresIn t))
           +:+ "," +:+ sampleMember "token_type" (quoted (sampleEscape (TokenType t)))
           +:+ "}");
     json_Marshal_serviceAccountDetails := fun d =>
       Ok ("{" +:+ sampleMember "aliases" (quoted (sampleEscape (Aliases d)))
           +:+ "," +:+ sampleMember "email" (quoted (sampleEscape (Email d)))
           +:+ "," +:+ sampleMember "scopes" (quoted (sampleEscape (Scopes d)))
           +:+ "}");
     google_CredentialsFromJSON := fun data _ =>
       if String.eqb data keyJSON then Ok "key-project"
       else Err "google: could not parse credentials";
     google_JWTConfigFromJSON := fun data _ =>
       if String.eqb data keyJSON then Ok "sa@key.example"
       else Err "google: could not parse key" |}.

(** The five override variables, all set. *)
Definition overrideEnv : gmap string string :=
  {[ googleAccessToken := "ya29.override";
     googleIDToken := "eyJ.override";
     googleAccountEmail := "sa@override.example";
     googleNumericProjectID := "1071284184436";
     googleProjectID := "override-project" ]}.

(** The flags at their defaults (lines 388-395). *)
Definition defaultConfig : serverConfig :=
  {| flPort := ":8080"; flnumericProjectID := "";
     fltokenScopes := "https://www.googleapis.com/auth/userinfo.email";
     flprojectID := ""; flserviceAccountEmail := ""; flserviAccountFile := "";
     flcustomAttributeFile := ""; flImpersonate := false |}.

(** A key file, two scopes, and nothing else configured. *)
Definition keyFileConfig : serverConfig :=
  {| flPort := ":8080"; flnumericProjectID := "";
     fltokenScopes := "scope1,scope2";
     flprojectID := ""; flserviceAccountEmail := ""; flserviAccountFile := "key.json";
     flcustomAttributeFile := ""; flImpersonate := false |}.

(** A key file together with explicit project flags. *)
Definition flagConfig : serverConfig :=
  {| flPort := ":8080"; flnumericProjectID := "708288290784";
     fltokenScopes := "scope1,scope2";
     flprojectID := "flag-project"; flserviceAccountEmail := "sa@flag.example";
     flserviAccountFile := "key.json";
     flcustomAttributeFile := "attrs.json"; flImpersonate := false |}.

(** The credentials [resolve] builds from [key.json]. *)
Definition keyFileCredentials : google.Credentials :=
  {| google.ProjectID := "key-project";
     google.TokenSource := oauth2.JSONCredentials keyJSON ["scope1"; "scope2"];
     google.JSON := keyJSON |}.

(** The process after startup in each mode. *)
Definition overrideWorld : World := initial overrideEnv defaultConfig.
Definition keyFileWorld : World :=
  set_creds (Some keyFileCredentials) (initial ∅ keyFileConfig).
Definition flagWorld : World :=
  set_customAttributeMap {[ "a" := "1"; "b" := "2" ]}
    (set_creds (Some keyFileCredentials) (initial ∅ flagConfig)).
(** All three sources of a project ID at once, with three different values. *)
Definition conflictWorld : World :=
  set_creds (Some keyFileCredentials) (initial overrideEnv flagConfig).

Definition sampleRequest (acct key : string) (query : gmap string (list string))
  : http.Request :=
  {| http.Vars := {[ "acct" := acct; "key" := key ]}; http.Query := query |}.

(** A request to an allowed host that carries the flavor header. *)
Definition sampleIncoming (host uri : string) (r : http.Request) : Incoming :=
  {| Host := host; RequestURI := uri; URL_Path := uri;
     ReqHeader := {[ "Metadata-Flavor" := ["Google"] ]};
     routed := r |}.

(** The same without the flavor header. *)
Definition plainIncoming (host uri : string) (r : http.Request) : Incoming :=
  {| Host := host; RequestURI := uri; URL_Path := uri;
     ReqHeader := ∅;
     routed := r |}.

(** An environment outside the process in which the identity provider
    refuses every token and the key file yields no JWT configuration. *)
Definition failingExternal : External :=
  {| provider_Token := fun _ _ => Err "oauth2: cannot fetch token";
     provider_NewTokenSource := provider_NewTokenSource sampleExternal;
     impersonate_CredentialsTokenSource :=
       impersonate_CredentialsTokenSource sampleExternal;
     time_Now := time_Now sampleExternal;
     os_Open := os_Open sampleExternal;
     ioutil_ReadFile := ioutil_ReadFile sampleExternal;
     json_Decode := json_Decode sampleExternal;
     json_Marshal_metadataToken := json_Marshal_metadataToken sampleExternal;
     json_Marshal_serviceAccountDetails :=
       json_Marshal_serviceAccountDetails sampleExternal;
     google_CredentialsFromJSON := google_CredentialsFromJSON sampleExternal;
     google_JWTConfigFromJSON := fun _ _ => Err "google: could not parse key" |}.

(** Impersonation requested with none of the identity flags set. *)
Definition bareImpersonationConfig : serverConfig :=
  {| flPort := ":8080"; flnumericProjectID := "";
     fltokenScopes := "scope1"; flprojectID := ""; flserviceAccountEmail := "";
     flserviAccountFile := ""; flcustomAttributeFile := ""; flImpersonate := true |}.

Definition projectIDRequest : Incoming :=
  sampleIncoming "metadata.google.internal" "/computeMetadata/v1/project/project-id"
    (sampleRequest "" "" ∅).
Definition foreignHostRequest : Incoming :=
  sampleIncoming "evil.example.com" "/computeMetadata/v1/project/project-id"
    (sampleRequest "" "" ∅).
Definition rootRequest : Incoming :=
  plainIncoming "169.254.169.254" "/" (sampleRequest "" "" ∅).
Definition attributeRequest : Incoming :=
  sampleIncoming "metadata" "/computeMetadata/v1/project/attributes/k1"
    (sampleRequest "" "k1" ∅).
Definition accountsRequest : Incoming :=
  sampleIncoming "metadata" "/computeMetadata/v1/instance/service-accounts/"
    (sampleRequest "" "" ∅).
Definition accessTokenRequest : Incoming :=
  sampleIncoming "metadata" "/computeMetadata/v1/instance/service-accounts/default/token"
    (sampleRequest "default" "token" ∅).
Definition identityRequest : Incoming :=
  sampleIncoming "metadata"
    "/computeMetadata/v1/instance/service-accounts/default/identity?audience=https://a.example"
    (sampleRequest "default" "identity" {[ "audience" := ["https://a.example"] ]}).


(** Case analysis on what a handler reads and calls. *)
Ltac handler_cases E st :=
  repeat match goal with
         | |- context [if String.eqb ?a ?b then _ else _] => destruct (String.eqb a b)
         | |- context [if negb ?b then _ else _] => destruct (negb b)
         | |- context [match getProjectID st with _ => _ end] =>
             destruct (getProjectID st)
         | |- context [match customAttributeMap st !! ?k with _ => _ end] =>
             destruct (customAttributeMap st !! k)
         | |- context [match getServiceAccountEmail E st with _ => _ end] =>
             destruct (getServiceAccountEmail E st)
         | |- context [match json_Marshal_serviceAccountDetails E ?d with _ => _ end] =>
             destruct (json_Marshal_serviceAccountDetails E d)
         | |- context [match http.Query ?q !! "audience" with _ => _ end] =>
             destruct (http.Query q !! "audience") as [[| ? ?] |]
         | |- context [getIDToken E ?a st] =>
             destruct (getIDToken E a st) as [[[? [? |]] | | ?] ?]
         | |- context [getAccessToken E st] =>
             destruct (getAccessToken E st) as [[[? [? |]] | | ?] ?]
         | |- context [json_Marshal_metadataToken E ?t] =>
             destruct (json_Marshal_metadataToken E t)
         end.


(** * Properties *)

(** ** Checks of the model on the sample inputs *)

Example Split_scopes : Split "scope1,scope2" "," = ["scope1"; "scope2"].
Proof. reflexivity. Qed.

Example Split_empty : Split "" "," = [""].
Proof. reflexivity. Qed.

Example Split_trailing : Split "a,,b," "," = ["a"; ""; "b"; ""].
Proof. reflexivity. Qed.

Example startup_override :
  startup sampleExternal overrideEnv defaultConfig = Return overrideWorld.
Proof. vm_compute. reflexivity. Qed.

Example startup_keyFile :
  startup sampleExternal ∅ keyFileConfig = Return keyFileWorld.
Proof. vm_compute. reflexivity. Qed.

Example startup_flags :
  startup sampleExternal ∅ flagConfig = Return flagWorld.
Proof. vm_compute. reflexivity. Qed.

Example startup_nothing_configured :
  startup sampleExternal ∅ defaultConfig = Exit (-1).
Proof. vm_compute. reflexivity. Qed.

(** Key-file mode with the scopes [scope1,scope2]: the [scopes] key answers
    each scope followed by a line feed. *)
Example scopes_scenario :
  getServiceAccountHandler sampleExternal http.NewResponseWriter
    (sampleRequest "default" "scopes" ∅) keyFileWorld
  = (Return (http.Write ("scope1" +:+ LF +:+ "scope2" +:+ LF)
               (http.Header_Set "Content-Type" "application/text" http.NewResponseWriter)),
     keyFileWorld).
Proof. vm_compute. reflexivity. Qed.

(** ** Shared lemmas *)

Lemma nonempty_true (s : string) : nonempty s = true <-> s <> "".
Proof.
  unfold nonempty. destruct (String.eqb_spec s ""); simpl; split; congruence.
Qed.

Lemma nonempty_false (s : string) : nonempty s = false <-> s = "".
Proof.
  unfold nonempty. destruct (String.eqb_spec s ""); simpl; split; congruence.
Qed.

Lemma append_assoc (s1 s2 s3 : string) : (s1 +:+ s2) +:+ s3 = s1 +:+ (s2 +:+ s3).
Proof.
  induction s1 as [| c s1 IH]; [reflexivity |].
  change (String c ((s1 +:+ s2) +:+ s3) = String c (s1 +:+ (s2 +:+ s3))).
  now rewrite IH.
Qed.

(** The override test reads the environment and nothing else. *)
Lemma isEnvironmentOverrideSet_environ (w w' : World) :
  environ w' = environ w ->
  isEnvironmentOverrideSet w' = isEnvironmentOverrideSet w.
Proof.
  intros Henv. unfold isEnvironmentOverrideSet, Getenv. now rewrite Henv.
Qed.

(** The override is active exactly when the five variables are non-empty. *)
Lemma isEnvironmentOverrideSet_true (w : World) :
  isEnvironmentOverrideSet w = true <->
  Getenv w googleAccessToken <> "" /\ Getenv w googleIDToken <> ""
  /\ Getenv w googleAccountEmail <> "" /\ Getenv w googleNumericProjectID <> ""
  /\ Getenv w googleProjectID <> "".
Proof.
  unfold isEnvironmentOverrideSet.
  rewrite !andb_true_iff, !nonempty_true. tauto.
Qed.

(** ** Identity *)

(** C4. [getProjectID] follows a strict precedence, whatever the other
    two sources hold: the project-ID environment variable when the
    override is active; otherwise the [projectId] flag when it is set;
    otherwise the project ID of the resolved credentials. *)
Theorem getProjectID_precedence (w : World) :
  (isEnvironmentOverrideSet w = true ->
   getProjectID w = Return (Getenv w googleProjectID))
  /\ (isEnvironmentOverrideSet w = false -> flprojectID (cfg w) <> "" ->
      getProjectID w = Return (flprojectID (cfg w)))
  /\ (isEnvironmentOverrideSet w = false -> flprojectID (cfg w) = "" ->
      forall c, creds w = Some c -> getProjectID w = Return (google.ProjectID c)).
Proof.
  unfold getProjectID. repeat split.
  - intros ->. reflexivity.
  - intros -> Hflag. apply nonempty_true in Hflag. now rewrite Hflag.
  - intros -> Hflag c Hc. apply nonempty_false in Hflag. now rewrite Hflag, Hc.
Qed.

(** The three levels at work on conflicting values: with the override
    active the environment wins over flag and credentials; without it the
    flag wins over the credentials; without both the credentials answer. *)
Lemma getProjectID_precedence_witness :
  getProjectID conflictWorld = Return "override-project"
  /\ getProjectID flagWorld = Return "flag-project"
  /\ getProjectID keyFileWorld = Return "key-project".
Proof.
  split; [| split].
  - apply (proj1 (getProjectID_precedence conflictWorld)). reflexivity.
  - apply (proj1 (proj2 (getProjectID_precedence flagWorld))).
    + reflexivity.
    + discriminate.
  - apply (proj2 (proj2 (getProjectID_precedence keyFileWorld)) eq_refl eq_refl
             keyFileCredentials).
    reflexivity.
Defined.

(** C5. [getNumericProjectID] returns the numeric-project-ID environment
    variable when the override is active and the [numericProjectId] flag
    otherwise, empty or not; the credentials play no part in the answer. *)
Theorem getNumericProjectID_no_fallback (w : World) :
  (isEnvironmentOverrideSet w = true ->
   getNumericProjectID w = Getenv w googleNumericProjectID)
  /\ (isEnvironmentOverrideSet w = false ->
      getNumericProjectID w = flnumericProjectID (cfg w))
  /\ (forall c, getNumericProjectID (set_creds c w) = getNumericProjectID w).
Proof.
  unfold getNumericProjectID. repeat split.
  - intros ->. reflexivity.
  - intros ->. reflexivity.
Qed.

(** With a key file that names a project and no [numericProjectId] flag the
    answer is the empty string; with the override it is the variable. *)
Lemma getNumericProjectID_no_fallback_witness :
  getNumericProjectID keyFileWorld = ""
  /\ getNumericProjectID conflictWorld = "1071284184436".
Proof.
  split.
  - apply (proj1 (proj2 (getNumericProjectID_no_fallback keyFileWorld))). reflexivity.
  - apply (proj1 (getNumericProjectID_no_fallback conflictWorld)). reflexivity.
Defined.

(** ** The attribute store *)

(** C6. [setCustomAttributes] returns normally in every case.  With an
    empty path, with a file that cannot be opened, and with a file whose
    decoding into a [map[string]string] fails, it leaves the whole state,
    the attribute map included, as it was.  With a file that decodes, the
    attribute map becomes the decoded map: a key is in the store afterwards
    exactly when the file has it, so no earlier key survives; the rest of
    the state is untouched. *)
Theorem setCustomAttributes_load (E : External) (path : string) (w : World) :
  (path = "" -> setCustomAttributes E path w = w)
  /\ (forall e, os_Open E path = Err e -> setCustomAttributes E path w = w)
  /\ (forall file e, os_Open E path = Ok file -> json_Decode E file = Err e ->
      setCustomAttributes E path w = w)
  /\ (forall file data, path <> "" ->
      os_Open E path = Ok file -> json_Decode E file = Ok data ->
      setCustomAttributes E path w = set_customAttributeMap data w
      /\ forall key, customAttributeMap (setCustomAttributes E path w) !! key = data !! key).
Proof.
  unfold setCustomAttributes. split; [| split; [| split]].
  - intros ->. reflexivity.
  - intros e ->. now destruct (String.eqb path "").
  - intros file e -> ->. now destruct (String.eqb path "").
  - intros file data Hpath Hopen Hdecode.
    destruct (String.eqb_spec path "") as [Hempty | _]; [congruence |].
    rewrite Hopen, Hdecode. split; [reflexivity |]. intros key. reflexivity.
Qed.

(** The four cases on the sample files, starting from the seeded store:
    no path, a missing file, a JSON array, and an object of two members,
    after which [k1] is gone. *)
Lemma setCustomAttributes_load_witness :
  let w := initial ∅ defaultConfig in
  setCustomAttributes sampleExternal "" w = w
  /\ setCustomAttributes sampleExternal "missing.json" w = w
  /\ setCustomAttributes sampleExternal "array.json" w = w
  /\ customAttributeMap (setCustomAttributes sampleExternal "attrs.json" w) !! "k1" = None
  /\ customAttributeMap (setCustomAttributes sampleExternal "attrs.json" w) !! "a" = Some "1".
Proof.
  intros w.
  pose proof (setCustomAttributes_load sampleExternal "" w) as H0.
  pose proof (setCustomAttributes_load sampleExternal "missing.json" w) as H1.
  pose proof (setCustomAttributes_load sampleExternal "array.json" w) as H2.
  pose proof (setCustomAttributes_load sampleExternal "attrs.json" w) as H3.
  split; [| split; [| split; [| split]]].
  - apply (proj1 H0). reflexivity.
  - eapply (proj1 (proj2 H1)). reflexivity.
  - eapply (proj1 (proj2 (proj2 H2))); reflexivity.
  - destruct (proj2 (proj2 (proj2 H3)) attrsJSON {[ "a" := "1"; "b" := "2" ]})
      as [_ Hkeys]; [discriminate | reflexivity | reflexivity |].
    rewrite Hkeys. reflexivity.
  - destruct (proj2 (proj2 (proj2 H3)) attrsJSON {[ "a" := "1"; "b" := "2" ]})
      as [_ Hkeys]; [discriminate | reflexivity | reflexivity |].
    rewrite Hkeys. reflexivity.
Defined.

(** C7. For a key of the store [attributesHandler] writes the value the key
    maps to; for any other key it writes the decimal digits of the status
    code 404 as the body, and the status of the response is 200, not 404.
    The store is left as it was in both cases. *)
Theorem attributesHandler_lookup
  (w : http.ResponseWriter) (r : http.Request) (st : World) :
  http.wrote w = None ->
  (forall val, customAttributeMap st !! vars r "key" = Some val ->
     exists w', attributesHandler w r st = (Return w', st)
       /\ http.body w' = http.body w +:+ val
       /\ http.StatusCode w' = 200)
  /\ (customAttributeMap st !! vars r "key" = None ->
      exists w', attributesHandler w r st = (Return w', st)
        /\ http.body w' = http.body w +:+ "404"
        /\ http.StatusCode w' = 200).
Proof.
  intros Hfresh. unfold attributesHandler. split.
  - intros val ->. eexists. split; [reflexivity |].
    unfold Fprint, http.Write, http.WriteHeader, http.StatusCode. simpl.
    rewrite Hfresh. simpl. split; reflexivity.
  - intros ->. eexists. split; [reflexivity |].
    unfold Fprint_int, http.Write, http.WriteHeader, http.StatusCode. simpl.
    rewrite Hfresh. simpl. split; reflexivity.
Qed.

(** With the seeded store, [k1] answers [v1] and [unknown] answers the
    text [404], both with status 200. *)
Lemma attributesHandler_lookup_witness :
  (exists w', attributesHandler http.NewResponseWriter
                (sampleRequest "" "k1" ∅) keyFileWorld = (Return w', keyFileWorld)
     /\ http.body w' = "" +:+ "v1" /\ http.StatusCode w' = 200)
  /\ (exists w', attributesHandler http.NewResponseWriter
                   (sampleRequest "" "unknown" ∅) keyFileWorld = (Return w', keyFileWorld)
        /\ http.body w' = "" +:+ "404" /\ http.StatusCode w' = 200).
Proof.
  split.
  - apply (proj1 (attributesHandler_lookup http.NewResponseWriter
                    (sampleRequest "" "k1" ∅) keyFileWorld eq_refl) "v1").
    reflexivity.
  - apply (proj2 (attributesHandler_lookup http.NewResponseWriter
                    (sampleRequest "" "unknown" ∅) keyFileWorld eq_refl)).
    reflexivity.
Defined.

(** ** Durations *)

(** [Sub] stays within the range of a [Duration]. *)
Lemma Sub_range (t u : time.Time) :
  time.minDuration <= time.Sub t u <= time.maxDuration.
Proof.
  unfold time.Sub, time.minDuration, time.maxDuration. int64_consts.
  repeat match goal with
         | |- context [?a <? ?b] => destruct (Z.ltb_spec a b)
         end; lia.
Qed.

(** A duration rounded to the second is a non-negative number of seconds
    exactly when it is more than minus half a second. *)
Lemma SecondsInt_Round_nonneg (d : time.Duration) :
  time.minDuration <= d <= time.maxDuration ->
  0 <= time.SecondsInt (time.Round d time.Second) <-> - 500000000 < d.
Proof.
  unfold time.minDuration, time.maxDuration. intros Hd.
  unfold time.Round, time.SecondsInt, time.lessThanHalf, time.wrap64,
    time.minDuration, time.maxDuration, time.Second.
  int64_consts. cbv zeta. change (1000000000 <=? 0) with false. cbv iota.
  repeat match goal with
         | |- context [?a <? ?b] => destruct (Z.ltb_spec a b)
         end;
    Z.quot_rem_to_equations; Z.div_mod_to_equations; lia.
Qed.

(** The seconds left until [expiry], as [getAccessToken] computes them, are
    non-negative exactly when [expiry] lies less than half a second before
    [now]. *)
Lemma seconds_left_nonneg (expiry now : time.Time) :
  0 <= time.SecondsInt (time.Round (time.Sub expiry now) time.Second)
  <-> now - expiry < 500000000.
Proof.
  rewrite SecondsInt_Round_nonneg by apply Sub_range.
  unfold time.Sub, time.minDuration, time.maxDuration. int64_consts.
  repeat match goal with
         | |- context [?a <? ?b] => destruct (Z.ltb_spec a b)
         end; lia.
Qed.

Example Round_half_second_up : time.Round 1500000000 time.Second = 2000000000.
Proof. reflexivity. Qed.

Example Round_half_second_down : time.Round (-1500000000) time.Second = -2000000000.
Proof. reflexivity. Qed.

Example Round_below_half : time.Round (-499999999) time.Second = 0.
Proof. reflexivity. Qed.

Example Round_saturates : time.Round time.minDuration time.Second = time.minDuration.
Proof. reflexivity. Qed.

(** ** Tokens *)

(** The state changes of the mutex leave the environment alone. *)
Lemma isEnvironmentOverrideSet_Lock (w : World) :
  isEnvironmentOverrideSet (Lock w) = isEnvironmentOverrideSet w.
Proof. reflexivity. Qed.

(** [getAccessToken] with the override active: the credentials are
    rebuilt from the environment, their static source answers, and nothing
    is asked of the provider. *)
Lemma getAccessToken_override (E : External) (w : World) :
  isEnvironmentOverrideSet w = true ->
  getAccessToken E w =
    (Return ({| AccessToken := Getenv w googleAccessToken;
                ExpiresIn := time.SecondsInt
                               (time.Round (time.Sub time.zero (Now E w)) time.Second);
                TokenType := "Bearer" |}, None),
     Unlock
       (set_creds
          (Some {| google.ProjectID := Getenv w googleProjectID;
                   google.TokenSource :=
                     oauth2.StaticTokenSource
                       {| oauth2.AccessToken := Getenv w googleAccessToken;
                          oauth2.TokenType := "Bearer";
                          oauth2.Expiry := time.zero |};
                   google.JSON := "" |})
          (Lock w))).
Proof.
  intros Hov. unfold getAccessToken, getAccessToken_body.
  rewrite isEnvironmentOverrideSet_Lock, Hov. reflexivity.
Qed.

(** [getAccessToken] without the override: the resolved credentials are
    read, not written, and their source is asked for a token. *)
Lemma getAccessToken_resolved (E : External) (w : World) (c : google.Credentials) :
  isEnvironmentOverrideSet w = false -> creds w = Some c ->
  getAccessToken E w =
    match Token E (google.TokenSource c) (Lock w) with
    | (Err err, w1) =>
        (Return ({| AccessToken := ""; ExpiresIn := 0; TokenType := "" |}, Some err),
         Unlock w1)
    | (Ok t, w1) =>
        (Return ({| AccessToken := oauth2.AccessToken t;
                    ExpiresIn := time.SecondsInt
                                   (time.Round (time.Sub (oauth2.Expiry t) (Now E w1))
                                      time.Second);
                    TokenType := oauth2.TokenType t |}, None),
         Unlock w1)
    end.
Proof.
  intros Hov Hc. unfold getAccessToken, getAccessToken_body.
  rewrite isEnvironmentOverrideSet_Lock, Hov.
  change (creds (Lock w)) with (creds w). rewrite Hc.
  destruct (Token E (google.TokenSource c) (Lock w)) as [[t | err] w1]; reflexivity.
Qed.

Lemma getAccessToken_unresolved (E : External) (w : World) :
  isEnvironmentOverrideSet w = false -> creds w = None ->
  getAccessToken E w = (Panic, Unlock (Lock w)).
Proof.
  intros Hov Hc. unfold getAccessToken, getAccessToken_body.
  rewrite isEnvironmentOverrideSet_Lock, Hov.
  change (creds (Lock w)) with (creds w). now rewrite Hc.
Qed.

Lemma getIDToken_override (E : External) (targetAudience : string) (w : World) :
  isEnvironmentOverrideSet w = true ->
  getIDToken E targetAudience w = (Return (Getenv w googleIDToken, None), Unlock (Lock w)).
Proof.
  intros Hov. unfold getIDToken, getIDToken_body.
  rewrite isEnvironmentOverrideSet_Lock, Hov. reflexivity.
Qed.

(** [Token] leaves everything but the log of calls as it was. *)
Lemma Token_frame (E : External) (ts : oauth2.TokenSource) (w : World) :
  let w' := snd (Token E ts w) in
  environ w' = environ w /\ cfg w' = cfg w /\ creds w' = creds w
  /\ customAttributeMap w' = customAttributeMap w /\ tokenMutex w' = tokenMutex w.
Proof. destruct ts; simpl; auto. Qed.

(** C1. With the five override variables non-empty, [getAccessToken]
    returns the access-token variable, unchanged, as a [Bearer] token, and
    [getIDToken] returns the ID-token variable, unchanged, for every
    audience; neither makes a call to the identity provider (the log of
    calls is as before). *)
Theorem override_tokens (E : External) (w : World) :
  isEnvironmentOverrideSet w = true ->
  (exists seconds,
     fst (getAccessToken E w) =
       Return ({| AccessToken := Getenv w googleAccessToken;
                  ExpiresIn := seconds;
                  TokenType := "Bearer" |}, None))
  /\ calls (snd (getAccessToken E w)) = calls w
  /\ forall targetAudience,
       fst (getIDToken E targetAudience w) = Return (Getenv w googleIDToken, None)
       /\ calls (snd (getIDToken E targetAudience w)) = calls w.
Proof.
  intros Hov. rewrite getAccessToken_override by assumption.
  split; [eexists; reflexivity |]. split; [reflexivity |].
  intros targetAudience. rewrite getIDToken_override by assumption.
  split; reflexivity.
Qed.

Lemma override_tokens_witness :
  (exists seconds,
     fst (getAccessToken sampleExternal overrideWorld) =
       Return ({| AccessToken := Getenv overrideWorld googleAccessToken;
                  ExpiresIn := seconds;
                  TokenType := "Bearer" |}, None))
  /\ calls (snd (getAccessToken sampleExternal overrideWorld)) = calls overrideWorld
  /\ forall targetAudience,
       fst (getIDToken sampleExternal targetAudience overrideWorld)
       = Return (Getenv overrideWorld googleIDToken, None)
       /\ calls (snd (getIDToken sampleExternal targetAudience overrideWorld))
          = calls overrideWorld.
Proof. apply (override_tokens sampleExternal overrideWorld). reflexivity. Defined.

Example override_access_token_value : Getenv overrideWorld googleAccessToken = "ya29.override".
Proof. reflexivity. Qed.

Example override_id_token_two_audiences :
  fst (getIDToken sampleExternal "https://a.example" overrideWorld)
  = Return ("eyJ.override", None)
  /\ fst (getIDToken sampleExternal "https://b.example" overrideWorld)
     = Return ("eyJ.override", None).
Proof. split; vm_compute; reflexivity. Qed.

(** C2 as stated (every successful [getAccessToken] returns a
    non-negative [ExpiresIn]) fails with the override active: the static
    token has the zero [Expiry], the difference to the present time is
    below the least [Duration], and the call on 2026-10-31 succeeds with
    [ExpiresIn = -9223372036]. *)
Lemma ExpiresIn_negative_with_override :
  exists tok,
    fst (getAccessToken sampleExternal overrideWorld) = Return (tok, None)
    /\ ExpiresIn tok = -9223372036
    /\ ~ 0 <= ExpiresIn tok.
Proof.
  eexists. split; [vm_compute; reflexivity |]. split; [reflexivity |].
  simpl. lia.
Qed.

(** C2, amended. A successful [getAccessToken] returns as [ExpiresIn] the
    difference between the expiry of the token its source returned and the
    present time, saturated to a [Duration] and rounded to the second.
    That number is non-negative exactly when the expiry lies less than
    half a second before the present time.  With the override active the
    token is the static one, whose expiry is the zero time. *)
Theorem getAccessToken_ExpiresIn (E : External) (w : World) (tok : metadataToken) :
  fst (getAccessToken E w) = Return (tok, None) ->
  exists (t : oauth2.Token) (now : time.Time),
    (isEnvironmentOverrideSet w = true ->
       t = {| oauth2.AccessToken := Getenv w googleAccessToken;
              oauth2.TokenType := "Bearer";
              oauth2.Expiry := time.zero |}
       /\ now = Now E w)
    /\ (isEnvironmentOverrideSet w = false ->
        exists c, creds w = Some c
          /\ fst (Token E (google.TokenSource c) (Lock w)) = Ok t
          /\ now = Now E (snd (Token E (google.TokenSource c) (Lock w))))
    /\ ExpiresIn tok
       = time.SecondsInt (time.Round (time.Sub (oauth2.Expiry t) now) time.Second)
    /\ (0 <= ExpiresIn tok <-> now - oauth2.Expiry t < 500000000).
Proof.
  intros Hret. destruct (isEnvironmentOverrideSet w) eqn:Hov.
  - rewrite getAccessToken_override in Hret by assumption.
    simpl in Hret. injection Hret as <-.
    eexists _, (Now E w). split; [intros _; split; reflexivity |].
    split; [discriminate |]. split; [reflexivity |].
    apply seconds_left_nonneg.
  - destruct (creds w) as [c |] eqn:Hc.
    + rewrite (getAccessToken_resolved E w c) in Hret by assumption.
      destruct (Token E (google.TokenSource c) (Lock w)) as [[t | err] w1] eqn:Htok;
        simpl in Hret; [| discriminate].
      injection Hret as <-.
      exists t, (Now E w1). split; [discriminate |].
      split; [intros _; exists c; rewrite Htok; auto |]. split; [reflexivity |].
      apply seconds_left_nonneg.
    + rewrite getAccessToken_unresolved in Hret by assumption. discriminate.
Qed.

(** With the key file, on a token that expires an hour after the first
    reading of the clock and is fetched one second later. *)
Lemma getAccessToken_ExpiresIn_witness :
  exists (t : oauth2.Token) (now : time.Time),
    (isEnvironmentOverrideSet keyFileWorld = true ->
       t = {| oauth2.AccessToken := Getenv keyFileWorld googleAccessToken;
              oauth2.TokenType := "Bearer";
              oauth2.Expiry := time.zero |}
       /\ now = Now sampleExternal keyFileWorld)
    /\ (isEnvironmentOverrideSet keyFileWorld = false ->
        exists c, creds keyFileWorld = Some c
          /\ fst (Token sampleExternal (google.TokenSource c) (Lock keyFileWorld)) = Ok t
          /\ now = Now sampleExternal
                     (snd (Token sampleExternal (google.TokenSource c) (Lock keyFileWorld))))
    /\ 3599 = time.SecondsInt (time.Round (time.Sub (oauth2.Expiry t) now) time.Second)
    /\ (0 <= 3599 <-> now - oauth2.Expiry t < 500000000).
Proof.
  apply (getAccessToken_ExpiresIn sampleExternal keyFileWorld
           {| AccessToken := "ya29.provider"; ExpiresIn := 3599; TokenType := "Bearer" |}).
  vm_compute. reflexivity.
Defined.

(** ** What a request changes *)

(** The body of [getIDToken] writes none of the package-level variables,
    and it does not touch the mutex. *)
Lemma getIDToken_body_frame (E : External) (targetAudience : string) (w : World) :
  let w' := snd (getIDToken_body E targetAudience w) in
  environ w' = environ w /\ cfg w' = cfg w /\ creds w' = creds w
  /\ customAttributeMap w' = customAttributeMap w /\ tokenMutex w' = tokenMutex w.
Proof.
  unfold getIDToken_body.
  destruct (isEnvironmentOverrideSet w); [simpl; auto 6 |].
  destruct (match flImpersonate (cfg w) with true => _ | false => _ end)
    as [idTokenSource |]; [| simpl; auto 6].
  cbv zeta.
  destruct (provider_NewTokenSource E idTokenSource (length (calls w)));
    [simpl; auto 6 |].
  pose proof (Token_frame E idTokenSource
                (record_call (CallNewTokenSource idTokenSource) w)) as Hframe.
  destruct (Token E idTokenSource (record_call (CallNewTokenSource idTokenSource) w))
    as [[tok | err] w1]; exact Hframe.
Qed.

(** The body of [getAccessToken] does not touch the mutex. *)
Lemma getAccessToken_body_mutex (E : External) (w : World) :
  tokenMutex (snd (getAccessToken_body E w)) = tokenMutex w.
Proof.
  unfold getAccessToken_body.
  set (w0 := if isEnvironmentOverrideSet w then _ else w).
  assert (Hm : tokenMutex w0 = tokenMutex w)
    by (subst w0; destruct (isEnvironmentOverrideSet w); reflexivity).
  destruct (creds w0) as [c |]; [| exact Hm].
  pose proof (Token_frame E (google.TokenSource c) w0) as (_ & _ & _ & _ & Hframe).
  destruct (Token E (google.TokenSource c) w0) as [[tok | err] w1];
    simpl in *; congruence.
Qed.

(** [getIDToken] writes none of the package-level variables. *)
Lemma getIDToken_frame (E : External) (targetAudience : string) (w : World) :
  let w' := snd (getIDToken E targetAudience w) in
  environ w' = environ w /\ cfg w' = cfg w /\ creds w' = creds w
  /\ customAttributeMap w' = customAttributeMap w.
Proof.
  unfold getIDToken.
  pose proof (getIDToken_body_frame E targetAudience (Lock w)) as Hframe.
  destruct (getIDToken_body E targetAudience (Lock w)) as [r w1].
  simpl in *. tauto.
Qed.

(** [getAccessToken] writes [creds] when the override is active and none
    of the package-level variables otherwise. *)
Lemma getAccessToken_frame (E : External) (w : World) :
  let w' := snd (getAccessToken E w) in
  environ w' = environ w /\ cfg w' = cfg w
  /\ customAttributeMap w' = customAttributeMap w
  /\ (isEnvironmentOverrideSet w = false -> creds w' = creds w).
Proof.
  destruct (isEnvironmentOverrideSet w) eqn:Hov.
  - rewrite getAccessToken_override by assumption. simpl.
    repeat split; discriminate.
  - destruct (creds w) as [c |] eqn:Hc.
    + rewrite (getAccessToken_resolved E w c) by assumption.
      pose proof (Token_frame E (google.TokenSource c) (Lock w)) as Hframe.
      destruct (Token E (google.TokenSource c) (Lock w)) as [[t | err] w1];
        simpl in *; destruct Hframe as (-> & -> & -> & -> & _); auto.
    + rewrite getAccessToken_unresolved by assumption. simpl. auto.
Qed.

(** What the identity functions answer depends on the environment, the
    flags and [creds] only through the value that wins. *)
Lemma identity_unchanged (E : External) (w w' : World) :
  environ w' = environ w -> cfg w' = cfg w ->
  (isEnvironmentOverrideSet w = false -> creds w' = creds w) ->
  isEnvironmentOverrideSet w' = isEnvironmentOverrideSet w
  /\ getProjectID w' = getProjectID w
  /\ getNumericProjectID w' = getNumericProjectID w
  /\ getServiceAccountEmail E w' = getServiceAccountEmail E w.
Proof.
  intros Henv Hcfg Hcreds.
  pose proof (isEnvironmentOverrideSet_environ w w' Henv) as Hov.
  unfold getProjectID, getNumericProjectID, getServiceAccountEmail, Getenv.
  rewrite Hov, Henv, Hcfg.
  destruct (isEnvironmentOverrideSet w); [auto |].
  rewrite Hcreds by reflexivity. auto.
Qed.

(** C3 as stated (no request-time operation writes the resolved
    credentials) fails for [getAccessToken]: started with the five override
    variables, the process has no credentials object after startup, and
    the first token request stores one. *)
Lemma getAccessToken_writes_creds :
  exists w,
    startup sampleExternal overrideEnv defaultConfig = Return w
    /\ creds w = None
    /\ creds (snd (getAccessToken sampleExternal w)) <> creds w.
Proof.
  exists overrideWorld. split; [vm_compute; reflexivity |].
  split; [reflexivity |].
  rewrite getAccessToken_override by reflexivity. discriminate.
Qed.

(** C3, amended. [getProjectID], [getNumericProjectID] and
    [getServiceAccountEmail] only read the state.  [getIDToken] leaves the
    environment, the flags, [creds] and the attribute store as they were.
    [getAccessToken] does so too while the override is inactive; with the
    override active it replaces [creds], on every call, by credentials
    built from the environment variables.  No stored selection is
    consulted: every function tests the override variables again.  As no
    request writes the environment or the flags, that test, and the
    answers of the three identity functions, are the same after a token
    request as before it. *)
Theorem request_time_frame (E : External) (w : World) :
  (forall targetAudience,
     let w' := snd (getIDToken E targetAudience w) in
     environ w' = environ w /\ cfg w' = cfg w /\ creds w' = creds w
     /\ customAttributeMap w' = customAttributeMap w)
  /\ (let w' := snd (getAccessToken E w) in
      environ w' = environ w /\ cfg w' = cfg w
      /\ customAttributeMap w' = customAttributeMap w
      /\ (isEnvironmentOverrideSet w = false -> creds w' = creds w)
      /\ (isEnvironmentOverrideSet w = true ->
          creds w' =
            Some {| google.ProjectID := Getenv w googleProjectID;
                    google.TokenSource :=
                      oauth2.StaticTokenSource
                        {| oauth2.AccessToken := Getenv w googleAccessToken;
                           oauth2.TokenType := "Bearer";
                           oauth2.Expiry := time.zero |};
                    google.JSON := "" |}))
  /\ (forall w',
        w' = snd (getAccessToken E w)
        \/ (exists targetAudience, w' = snd (getIDToken E targetAudience w)) ->
        isEnvironmentOverrideSet w' = isEnvironmentOverrideSet w
        /\ getProjectID w' = getProjectID w
        /\ getNumericProjectID w' = getNumericProjectID w
        /\ getServiceAccountEmail E w' = getServiceAccountEmail E w).
Proof.
  split; [| split].
  - intros targetAudience. apply getIDToken_frame.
  - pose proof (getAccessToken_frame E w) as (Henv & Hcfg & Hattr & Hcreds).
    cbv zeta. repeat split; try assumption.
    intros Hov. rewrite getAccessToken_override by assumption. reflexivity.
  - intros w' [-> | [targetAudience ->]].
    + pose proof (getAccessToken_frame E w) as (Henv & Hcfg & _ & Hcreds).
      apply identity_unchanged; assumption.
    + pose proof (getIDToken_frame E targetAudience w) as (Henv & Hcfg & Hcreds & _).
      apply identity_unchanged; auto.
Qed.

(** ** The service-account handlers *)

(** A request for [identity] without an [audience] key in its query is
    answered with 400 and an explanation, and [getIDToken] is not called:
    the state is exactly as before. *)
Lemma identity_without_audience
  (E : External) (w : http.ResponseWriter) (r : http.Request) (st : World) :
  vars r "key" = "identity" -> http.Query r !! "audience" = None ->
  http.wrote w = None ->
  exists w', getServiceAccountHandler E w r st = (Return w', st)
    /\ http.StatusCode w' = 400
    /\ http.body w'
       = http.body w +:+ "Bad Request" +:+ LF +:+ "non-empty audience parameter required".
Proof.
  intros Hkey Hq Hfresh. unfold getServiceAccountHandler.
  rewrite Hkey, Hq. simpl. eexists. split; [reflexivity |].
  unfold http.StatusCode, Fprint, http.Error, http.Write, http.WriteHeader.
  simpl. rewrite Hfresh. simpl. split; [reflexivity |].
  now rewrite !append_assoc.
Qed.

(** A request for [identity] whose query has an [audience] key calls
    [getIDToken] with the first value of that key, whatever it is, and on
    success answers 200 with the token. *)
Lemma identity_with_audience
  (E : External) (w : http.ResponseWriter) (r : http.Request) (st : World)
  (k0 : string) (rest : list string) :
  vars r "key" = "identity" -> http.Query r !! "audience" = Some (k0 :: rest) ->
  http.wrote w = None ->
  snd (getServiceAccountHandler E w r st) = snd (getIDToken E k0 st)
  /\ forall idtok, fst (getIDToken E k0 st) = Return (idtok, None) ->
       exists w', fst (getServiceAccountHandler E w r st) = Return w'
         /\ http.StatusCode w' = 200
         /\ http.body w' = http.body w +:+ idtok.
Proof.
  intros Hkey Hq Hfresh. unfold getServiceAccountHandler.
  rewrite Hkey, Hq. simpl.
  destruct (getIDToken E k0 st) as [[[idtok [err |]] | | code] st'];
    simpl; (split; [reflexivity |]); intros idtok' Heq; try discriminate.
  injection Heq as <-. eexists. split; [reflexivity |].
  unfold http.StatusCode, Fprint, http.Write, http.WriteHeader. simpl.
  rewrite Hfresh. simpl. auto.
Qed.

(** C8, at the failing input. The request
    [.../service-accounts/default/identity?audience=] carries an
    [audience] key with the empty value.  The handler does not answer 400.
    With the override active it calls [getIDToken] with the empty
    audience and answers 200 with the ID-token variable as the body.  With
    a key file it asks for an identity-token source for the empty
    audience, and whatever the provider answers the status is not 400. *)
Theorem identity_empty_audience_accepted (E : External) :
  (exists w',
     getServiceAccountHandler E http.NewResponseWriter
       (sampleRequest "default" "identity" {[ "audience" := [""] ]}) overrideWorld
     = (Return w', snd (getIDToken E "" overrideWorld))
     /\ http.StatusCode w' = 200
     /\ http.body w' = "eyJ.override")
  /\ (exists rest,
        calls (snd (getServiceAccountHandler E http.NewResponseWriter
                      (sampleRequest "default" "identity" {[ "audience" := [""] ]})
                      keyFileWorld))
        = CallNewTokenSource (oauth2.JSONIDToken "" keyJSON) :: rest)
  /\ (forall w',
        fst (getServiceAccountHandler E http.NewResponseWriter
               (sampleRequest "default" "identity" {[ "audience" := [""] ]})
               keyFileWorld) = Return w' ->
        http.StatusCode w' <> 400).
Proof.
  split; [| split].
  - eexists. split; [vm_compute; reflexivity |]. split; reflexivity.
  - destruct E as [pToken pNew ? ? ? ? ? ? ? ? ?]. vm_compute.
    destruct (pNew _ _); [eexists; reflexivity |].
    destruct (pToken _ _); eexists; reflexivity.
  - intros w'. destruct E as [pToken pNew ? ? ? ? ? ? ? ? ?]. vm_compute.
    destruct (pNew _ _).
    + intros Heq. injection Heq as <-. discriminate.
    + destruct (pToken _ _); intros Heq; injection Heq as <-; discriminate.
Qed.

(** The index of an account reports the account segment of the path as
    its alias. *)
Lemma indexDetails_Aliases
  (E : External) (r : http.Request) (st : World) (d : serviceAccountDetails) :
  indexDetails E r st = Return d -> Aliases d = vars r "acct".
Proof.
  unfold indexDetails.
  destruct (getServiceAccountEmail E st); intros Heq; try discriminate.
  now injection Heq as <-.
Qed.

(** The [aliases] key answers [default] for every account. *)
Lemma aliases_key_default
  (E : External) (w : http.ResponseWriter) (r : http.Request) (st : World) :
  vars r "key" = "aliases" ->
  getServiceAccountHandler E w r st
  = (Return (Fprint (http.Header_Set "Content-Type" "application/text" w) "default"), st).
Proof. intros Hkey. unfold getServiceAccountHandler. now rewrite Hkey. Qed.

(** C9, at the failing input. For the account segment [other] the index
    handler builds a value whose [Aliases] field is [other], not
    [default], and answers with the JSON encoding of that value, while the
    [aliases] key of the same account answers [default]. *)
Theorem index_alias_is_the_account_segment (E : External) :
  indexDetails E (sampleRequest "other" "" ∅) overrideWorld
  = Return {| Aliases := "other";
              Email := "sa@override.example";
              Scopes := "https://www.googleapis.com/auth/userinfo.email" +:+ LF |}
  /\ (forall js,
        json_Marshal_serviceAccountDetails E
          {| Aliases := "other";
             Email := "sa@override.example";
             Scopes := "https://www.googleapis.com/auth/userinfo.email" +:+ LF |}
        = Ok js ->
        exists w',
          getServiceAccountIndexHandler E http.NewResponseWriter
            (sampleRequest "other" "" ∅) overrideWorld = (Return w', overrideWorld)
          /\ http.StatusCode w' = 200
          /\ http.body w' = js)
  /\ (exists w',
        getServiceAccountHandler E http.NewResponseWriter
          (sampleRequest "other" "aliases" ∅) overrideWorld = (Return w', overrideWorld)
        /\ http.body w' = "default").
Proof.
  split; [vm_compute; reflexivity |]. split.
  - intros js Hjs. unfold getServiceAccountIndexHandler.
    change (indexDetails E (sampleRequest "other" "" ∅) overrideWorld)
      with (Return {| Aliases := "other";
                      Email := "sa@override.example";
                      Scopes := "https://www.googleapis.com/auth/userinfo.email" +:+ LF |}).
    cbv beta iota. rewrite Hjs. eexists. split; [reflexivity |]. split; reflexivity.
  - eexists. split; [vm_compute; reflexivity |]. vm_compute. reflexivity.
Qed.

(** The same response as the sample encoder renders it. *)
Example index_other_body :
  exists w',
    getServiceAccountIndexHandler sampleExternal http.NewResponseWriter
      (sampleRequest "other" "" ∅) overrideWorld = (Return w', overrideWorld)
    /\ http.body w'
       = "{" +:+ quoted "aliases" +:+ ":" +:+ quoted "other" +:+ ","
             +:+ quoted "email" +:+ ":" +:+ quoted "sa@override.example" +:+ ","
             +:+ quoted "scopes" +:+ ":"
             +:+ quoted "https://www.googleapis.com/auth/userinfo.email\n" +:+ "}".
Proof. eexists. split; vm_compute; reflexivity. Qed.

(** ** The mutex *)

(** Both functions return with the mutex released, whatever the outcome. *)
Lemma serve_unlocks (E : External) (q : tokenRequest) (w : World) :
  tokenMutex (snd (serve E q w)) = false.
Proof.
  destruct q as [| targetAudience]; unfold serve, getAccessToken, getIDToken.
  - destruct (getAccessToken_body E (Lock w)); reflexivity.
  - destruct (getIDToken_body E targetAudience (Lock w)); reflexivity.
Qed.

(** The body of either function leaves the mutex as it is. *)
Lemma body_mutex (E : External) (q : tokenRequest) (w : World) :
  tokenMutex (snd (body E q w)) = tokenMutex w.
Proof.
  destruct q as [| targetAudience]; unfold body.
  - pose proof (getAccessToken_body_mutex E w) as Hm.
    destruct (getAccessToken_body E w); exact Hm.
  - pose proof (getIDToken_body_frame E targetAudience w) as (_ & _ & _ & _ & Hm).
    destruct (getIDToken_body E targetAudience w); exact Hm.
Qed.

(** A goroutine scheduled alone goes through [Lock], the body and
    [Unlock], and the three steps together are the function it calls. *)
Lemma run_alone (E : External) (q : tokenRequest) (w : World) :
  tokenMutex w = false ->
  run E [0; 0; 0]%nat (spawn w [q])
  = {| world := snd (serve E q w);
       goroutines := [ {| request := q; at_point := Returned (fst (serve E q w)) |} ] |}.
Proof.
  intros Hfree. unfold run, spawn, schedule, step. simpl. rewrite Hfree. simpl.
  destruct q as [| targetAudience]; unfold body, serve, getAccessToken, getIDToken.
  - destruct (getAccessToken_body E (Lock w)); reflexivity.
  - destruct (getIDToken_body E targetAudience (Lock w)); reflexivity.
Qed.

(** Replacing one goroutine changes the number of holders by what that
    goroutine contributes. *)
Lemma holders_insert (gs : list goroutine) (i : nat) (g g' : goroutine) :
  gs !! i = Some g ->
  (length (List.filter holds (<[i := g']> gs)) + Nat.b2n (holds g)
   = length (List.filter holds gs) + Nat.b2n (holds g'))%nat.
Proof.
  revert i. induction gs as [| g0 gs IH]; intros [| i] Hi; try discriminate.
  - injection Hi as ->. simpl.
    destruct (holds g), (holds g'); simpl; lia.
  - simpl in Hi. specialize (IH i Hi). simpl.
    destruct (holds g0); simpl; lia.
Qed.

(** Two distinct goroutines that both hold count for two. *)
Lemma two_holders (gs : list goroutine) (i j : nat) (gi gj : goroutine) :
  gs !! i = Some gi -> gs !! j = Some gj ->
  holds gi = true -> holds gj = true -> i <> j ->
  (2 <= length (List.filter holds gs))%nat.
Proof.
  assert (Hone : forall (l : list goroutine) k g,
             l !! k = Some g -> holds g = true ->
             (1 <= length (List.filter holds l))%nat).
  { induction l as [| g0 l IH]; intros [| k] g Hk Hg; try discriminate.
    - injection Hk as ->. simpl. rewrite Hg. simpl. lia.
    - simpl in Hk. specialize (IH k g Hk Hg). simpl.
      destruct (holds g0); simpl; lia. }
  revert i j. induction gs as [| g0 gs IH]; intros [| i] [| j] Hi Hj Hgi Hgj Hne;
    try discriminate; try congruence; simpl in *.
  - injection Hi as ->. rewrite Hgi. simpl.
    pose proof (Hone gs j gj Hj Hgj). lia.
  - injection Hj as ->. rewrite Hgj. simpl.
    pose proof (Hone gs i gi Hi Hgi). lia.
  - assert (i <> j) by congruence.
    specialize (IH i j Hi Hj Hgi Hgj H). destruct (holds g0); simpl; lia.
Qed.

Lemma mutex_invariant_spawn (w : World) (qs : list tokenRequest) :
  tokenMutex w = false -> mutex_invariant (spawn w qs).
Proof.
  intros Hfree. unfold mutex_invariant, holders, spawn. simpl. rewrite Hfree.
  induction qs as [| q qs IH]; [reflexivity | exact IH].
Qed.

Lemma mutex_invariant_schedule (E : External) (s : system) (i : nat) :
  mutex_invariant s -> mutex_invariant (schedule E s i).
Proof.
  unfold mutex_invariant, holders, schedule. intros Hinv.
  destruct (goroutines s !! i) as [g |] eqn:Hi; [| exact Hinv].
  unfold step. destruct g as [q p]. simpl.
  destruct p as [| | r | r].
  - destruct (tokenMutex (world s)) eqn:Hm; [simpl; congruence |]. simpl.
    pose proof (holders_insert (goroutines s) i _
                  {| request := q; at_point := Fetching |} Hi) as Hcount.
    simpl in *. lia.
  - pose proof (body_mutex E q (world s)) as Hm.
    destruct (body E q (world s)) as [r w']. simpl in *.
    pose proof (holders_insert (goroutines s) i _
                  {| request := q; at_point := AtUnlock r |} Hi) as Hcount.
    simpl in *. rewrite Hm. lia.
  - simpl.
    pose proof (holders_insert (goroutines s) i _
                  {| request := q; at_point := Returned r |} Hi) as Hcount.
    simpl in *. destruct (tokenMutex (world s)); simpl in *; lia.
  - exact Hinv.
Qed.

Lemma mutex_invariant_run (E : External) (sched : list nat) (s : system) :
  mutex_invariant s -> mutex_invariant (run E sched s).
Proof.
  unfold run. revert s. induction sched as [| i sched IH]; intros s Hinv; [exact Hinv |].
  simpl. apply IH, mutex_invariant_schedule, Hinv.
Qed.

(** C10. [getAccessToken] and [getIDToken] take the one mutex
    [tokenMutex] before anything else and release it after everything
    else, on every outcome (a token, an error, a panic).  For any number
    of concurrent token requests and any interleaving of their steps, at
    most one goroutine is between [Lock] and [Unlock], where the token
    source is built and the token fetched; the mutex is held exactly then;
    and two goroutines that are both there are one and the same. *)
Theorem token_fetch_mutual_exclusion
  (E : External) (w : World) (qs : list tokenRequest) (sched : list nat) :
  tokenMutex w = false ->
  (forall q, serve E q w = (fst (body E q (Lock w)), Unlock (snd (body E q (Lock w))))
             /\ tokenMutex (snd (serve E q w)) = false)
  /\ (holders (run E sched (spawn w qs)) <= 1)%nat
  /\ (tokenMutex (world (run E sched (spawn w qs))) = true
      <-> holders (run E sched (spawn w qs)) = 1%nat)
  /\ (forall i j gi gj,
        goroutines (run E sched (spawn w qs)) !! i = Some gi ->
        goroutines (run E sched (spawn w qs)) !! j = Some gj ->
        holds gi = true -> holds gj = true -> i = j).
Proof.
  intros Hfree.
  pose proof (mutex_invariant_run E sched _ (mutex_invariant_spawn w qs Hfree)) as Hinv.
  unfold mutex_invariant in Hinv.
  set (s := run E sched (spawn w qs)) in *.
  split; [| split; [| split]].
  - intros q. split; [| apply serve_unlocks].
    destruct q as [| targetAudience]; unfold serve, body, getAccessToken, getIDToken.
    + destruct (getAccessToken_body E (Lock w)); reflexivity.
    + destruct (getIDToken_body E targetAudience (Lock w)); reflexivity.
  - rewrite Hinv. destruct (tokenMutex (world s)); simpl; lia.
  - rewrite Hinv. destruct (tokenMutex (world s)); simpl; split; congruence.
  - intros i j gi gj Hi Hj Hgi Hgj.
    destruct (decide (i = j)) as [| Hne]; [assumption | exfalso].
    pose proof (two_holders _ i j gi gj Hi Hj Hgi Hgj Hne) as Htwo.
    unfold holders in Hinv. rewrite Hinv in Htwo.
    destruct (tokenMutex (world s)); simpl in Htwo; lia.
Qed.

(** Two requests on the key-file process, the second one scheduled while
    the first holds the mutex. *)
Lemma token_fetch_mutual_exclusion_witness :
  (forall q,
     serve sampleExternal q keyFileWorld
     = (fst (body sampleExternal q (Lock keyFileWorld)),
        Unlock (snd (body sampleExternal q (Lock keyFileWorld))))
     /\ tokenMutex (snd (serve sampleExternal q keyFileWorld)) = false)
  /\ (holders (run sampleExternal [0; 1; 0; 1]%nat
                 (spawn keyFileWorld
                    [AccessTokenRequest; IDTokenRequest "https://a.example"])) <= 1)%nat
  /\ (tokenMutex (world (run sampleExternal [0; 1; 0; 1]%nat
                           (spawn keyFileWorld
                              [AccessTokenRequest; IDTokenRequest "https://a.example"])))
      = true
      <-> holders (run sampleExternal [0; 1; 0; 1]%nat
                     (spawn keyFileWorld
                        [AccessTokenRequest; IDTokenRequest "https://a.example"]))
          = 1%nat)
  /\ (forall i j gi gj,
        goroutines (run sampleExternal [0; 1; 0; 1]%nat
                      (spawn keyFileWorld
                         [AccessTokenRequest; IDTokenRequest "https://a.example"]))
          !! i = Some gi ->
        goroutines (run sampleExternal [0; 1; 0; 1]%nat
                      (spawn keyFileWorld
                         [AccessTokenRequest; IDTokenRequest "https://a.example"]))
          !! j = Some gj ->
        holds gi = true -> holds gj = true -> i = j).
Proof.
  apply (token_fetch_mutual_exclusion sampleExternal keyFileWorld
           [AccessTokenRequest; IDTokenRequest "https://a.example"] [0; 1; 0; 1]%nat).
  reflexivity.
Defined.

(** While the first request holds the mutex the second one stays before
    [Lock], however often it is scheduled. *)
Example second_request_waits :
  map at_point
    (goroutines (run sampleExternal [0; 1; 1; 1]%nat
                   (spawn keyFileWorld
                      [AccessTokenRequest; IDTokenRequest "https://a.example"])))
  = [Fetching; AtLock].
Proof. vm_compute. reflexivity. Qed.

(** Once the first request has released the mutex the second one enters;
    in the end both have returned and the mutex is free. *)
Example both_requests_served :
  let s := run sampleExternal [0; 0; 0; 1; 1; 1]%nat
             (spawn keyFileWorld
                [AccessTokenRequest; IDTokenRequest "https://a.example"]) in
  map at_point (goroutines s)
  = [Returned (AccessTokenReply
                 (Return ({| AccessToken := "ya29.provider";
                             ExpiresIn := 3599;
                             TokenType := "Bearer" |}, None)));
     Returned (IDTokenReply (Return ("idtoken:https://a.example", None)))]
  /\ tokenMutex (world s) = false
  /\ calls (world s)
     = [CallToken (oauth2.JSONCredentials keyJSON ["scope1"; "scope2"]);
        CallNewTokenSource (oauth2.JSONIDToken "https://a.example" keyJSON);
        CallToken (oauth2.JSONIDToken "https://a.example" keyJSON)].
Proof. vm_compute. auto. Qed.

(** ** Further instances *)

Lemma identity_without_audience_witness :
  exists w',
    getServiceAccountHandler sampleExternal http.NewResponseWriter
      (sampleRequest "default" "identity" ∅) keyFileWorld = (Return w', keyFileWorld)
    /\ http.StatusCode w' = 400
    /\ http.body w'
       = http.body http.NewResponseWriter
         +:+ "Bad Request" +:+ LF +:+ "non-empty audience parameter required".
Proof.
  apply (identity_without_audience sampleExternal http.NewResponseWriter
           (sampleRequest "default" "identity" ∅) keyFileWorld); reflexivity.
Defined.

Lemma identity_with_audience_witness :
  snd (getServiceAccountHandler sampleExternal http.NewResponseWriter
         (sampleRequest "default" "identity"
            {[ "audience" := ["https://a.example"; "https://b.example"] ]})
         keyFileWorld)
  = snd (getIDToken sampleExternal "https://a.example" keyFileWorld)
  /\ forall idtok,
       fst (getIDToken sampleExternal "https://a.example" keyFileWorld)
       = Return (idtok, None) ->
       exists w',
         fst (getServiceAccountHandler sampleExternal http.NewResponseWriter
                (sampleRequest "default" "identity"
                   {[ "audience" := ["https://a.example"; "https://b.example"] ]})
                keyFileWorld) = Return w'
         /\ http.StatusCode w' = 200
         /\ http.body w' = http.body http.NewResponseWriter +:+ idtok.
Proof.
  apply (identity_with_audience sampleExternal http.NewResponseWriter
           (sampleRequest "default" "identity"
              {[ "audience" := ["https://a.example"; "https://b.example"] ]})
           keyFileWorld "https://a.example" ["https://b.example"]); reflexivity.
Defined.

Lemma indexDetails_Aliases_witness :
  Aliases {| Aliases := "other"; Email := "sa@key.example";
             Scopes := "scope1" +:+ LF +:+ "scope2" +:+ LF |}
  = vars (sampleRequest "other" "" ∅) "acct".
Proof.
  apply (indexDetails_Aliases sampleExternal (sampleRequest "other" "" ∅) keyFileWorld).
  vm_compute. reflexivity.
Defined.

Lemma aliases_key_default_witness :
  getServiceAccountHandler sampleExternal http.NewResponseWriter
    (sampleRequest "other" "aliases" ∅) keyFileWorld
  = (Return (Fprint (http.Header_Set "Content-Type" "application/text"
                       http.NewResponseWriter) "default"), keyFileWorld).
Proof.
  apply (aliases_key_default sampleExternal http.NewResponseWriter
           (sampleRequest "other" "aliases" ∅) keyFileWorld).
  reflexivity.
Defined.

(** ** Startup *)

(** [setCustomAttributes] writes the attribute store and nothing else. *)
Lemma setCustomAttributes_frame (E : External) (path : string) (w : World) :
  let w' := setCustomAttributes E path w in
  environ w' = environ w /\ cfg w' = cfg w /\ creds w' = creds w
  /\ tokenMutex w' = tokenMutex w /\ calls w' = calls w.
Proof.
  unfold setCustomAttributes.
  destruct (String.eqb path ""); [simpl; auto |].
  destruct (os_Open E path) as [file | e]; [| simpl; auto].
  destruct (json_Decode E file) as [data | e]; simpl; auto.
Qed.

(** [resolve] keeps the environment and the flags, and returns with
    credentials exactly when the override is inactive. *)
Lemma resolve_credentials (E : External) (w w' : World) :
  creds w = None -> resolve E w = Return w' ->
  environ w' = environ w /\ cfg w' = cfg w
  /\ tokenMutex w' = tokenMutex w /\ calls w' = calls w
  /\ customAttributeMap w' = customAttributeMap w
  /\ (isEnvironmentOverrideSet w = true -> creds w' = None)
  /\ (isEnvironmentOverrideSet w = false -> exists c, creds w' = Some c).
Proof.
  intros Hnil. unfold resolve.
  destruct (isEnvironmentOverrideSet w).
  - intros Heq. injection Heq as <-. repeat split; auto. discriminate.
  - destruct (flImpersonate (cfg w)).
    + destruct (_ || _); [discriminate |].
      destruct (impersonate_CredentialsTokenSource E _ _); [discriminate |].
      intros Heq. injection Heq as <-. simpl. repeat split; eauto. discriminate.
    + destruct (String.eqb _ ""); [discriminate |].
      destruct (ioutil_ReadFile E _) as [data | e]; [| discriminate].
      destruct (google_CredentialsFromJSON E data _) as [projectID | e]; [| discriminate].
      intros Heq. injection Heq as <-. simpl. repeat split; eauto. discriminate.
Qed.

(** A process that has started serves with the given environment and
    flags, with the mutex free and no call made, and it holds credentials
    whenever the override is inactive; with the override active it holds
    none. *)
Lemma startup_credentials
  (E : External) (env : gmap string string) (c : serverConfig) (w : World) :
  startup E env c = Return w ->
  environ w = env /\ cfg w = c /\ tokenMutex w = false /\ calls w = []
  /\ (isEnvironmentOverrideSet w = true -> creds w = None)
  /\ (isEnvironmentOverrideSet w = false -> exists cr, creds w = Some cr).
Proof.
  unfold startup. intros Hstart.
  destruct (resolve E (initial env c)) as [w0 | | code] eqn:Hres; try discriminate.
  injection Hstart as <-.
  pose proof (resolve_credentials E (initial env c) w0 eq_refl Hres)
    as (Henv & Hcfg & Hm & Hcalls & _ & Hov & Hno).
  pose proof (setCustomAttributes_frame E (flcustomAttributeFile (cfg w0)) w0)
    as (Henv' & Hcfg' & Hcreds' & Hm' & Hcalls').
  cbv zeta in *.
  assert (Hsame : isEnvironmentOverrideSet
                    (setCustomAttributes E (flcustomAttributeFile (cfg w0)) w0)
                  = isEnvironmentOverrideSet (initial env c)).
  { apply isEnvironmentOverrideSet_environ. congruence. }
  rewrite Hsame, Henv', Hcfg', Hcreds', Hm', Hcalls'.
  repeat split; try assumption.
Qed.

Lemma startup_credentials_witness :
  environ keyFileWorld = ∅ /\ cfg keyFileWorld = keyFileConfig
  /\ tokenMutex keyFileWorld = false /\ calls keyFileWorld = []
  /\ (isEnvironmentOverrideSet keyFileWorld = true -> creds keyFileWorld = None)
  /\ (isEnvironmentOverrideSet keyFileWorld = false ->
      exists cr, creds keyFileWorld = Some cr).
Proof.
  apply (startup_credentials sampleExternal ∅ keyFileConfig keyFileWorld).
  vm_compute. reflexivity.
Defined.

(** Impersonation without one of [numericProjectId], [projectId] and
    [serviceAccountEmail] ends the process at startup, with exit code -1. *)
Lemma impersonation_needs_identity
  (E : External) (env : gmap string string) (c : serverConfig) :
  isEnvironmentOverrideSet (initial env c) = false ->
  flImpersonate c = true ->
  flnumericProjectID c = "" \/ flprojectID c = "" \/ flserviceAccountEmail c = "" ->
  startup E env c = Exit (-1).
Proof.
  intros Hov Himp Hmissing. unfold startup, resolve.
  rewrite Hov. simpl. rewrite Himp.
  assert (Hone : String.eqb (flnumericProjectID c) ""
                 || String.eqb (flprojectID c) ""
                 || String.eqb (flserviceAccountEmail c) "" = true).
  { destruct Hmissing as [-> | [-> | ->]]; simpl;
      rewrite ?orb_true_r; reflexivity. }
  now rewrite Hone.
Qed.

Lemma impersonation_needs_identity_witness :
  startup sampleExternal ∅
    {| flPort := ":8080"; flnumericProjectID := "708288290784";
       fltokenScopes := "scope1"; flprojectID := "";
       flserviceAccountEmail := "sa@flag.example"; flserviAccountFile := "";
       flcustomAttributeFile := ""; flImpersonate := true |}
  = Exit (-1).
Proof.
  apply impersonation_needs_identity; [reflexivity | reflexivity |].
  right. left. reflexivity.
Defined.

(** ** The service-account email *)

(** [getServiceAccountEmail]: the account-email variable when the override
    is active; otherwise the [serviceAccountEmail] flag when it is set;
    otherwise the email of the key file, and the end of the process when
    the key file does not parse. *)
Lemma getServiceAccountEmail_precedence (E : External) (w : World) :
  (isEnvironmentOverrideSet w = true ->
   getServiceAccountEmail E w = Return (Getenv w googleAccountEmail))
  /\ (isEnvironmentOverrideSet w = false -> flserviceAccountEmail (cfg w) <> "" ->
      getServiceAccountEmail E w = Return (flserviceAccountEmail (cfg w)))
  /\ (isEnvironmentOverrideSet w = false -> flserviceAccountEmail (cfg w) = "" ->
      forall c, creds w = Some c ->
        getServiceAccountEmail E w
        = match google_JWTConfigFromJSON E (google.JSON c) emailScope with
          | Ok email => Return email
          | Err _ => Exit 1
          end).
Proof.
  unfold getServiceAccountEmail. split; [| split].
  - intros ->. reflexivity.
  - intros -> Hflag. apply nonempty_true in Hflag. now rewrite Hflag.
  - intros -> Hflag c Hc. apply nonempty_false in Hflag. rewrite Hflag, Hc.
    now destruct (google_JWTConfigFromJSON E (google.JSON c) emailScope).
Qed.

(** ** Identity tokens and audiences *)

(** Without the override every [getIDToken] call builds a token source of
    its own for the audience it was given and asks that source: the calls
    it logs name that audience and no other. *)
Lemma getIDToken_asks_for_audience
  (E : External) (targetAudience : string) (w : World) (c : google.Credentials) :
  isEnvironmentOverrideSet w = false -> creds w = Some c ->
  let src :=
    if flImpersonate (cfg w)
    then oauth2.ImpersonatedIDToken (flserviceAccountEmail (cfg w)) targetAudience true
    else oauth2.JSONIDToken targetAudience (google.JSON c) in
  calls (snd (getIDToken E targetAudience w))
  = (calls w ++ CallNewTokenSource src
       :: match provider_NewTokenSource E src (length (calls w)) with
          | Some _ => []
          | None => [CallToken src]
          end)%list.
Proof.
  intros Hov Hc. unfold getIDToken, getIDToken_body.
  rewrite isEnvironmentOverrideSet_Lock, Hov.
  change (cfg (Lock w)) with (cfg w). change (creds (Lock w)) with (creds w).
  change (calls (Lock w)) with (calls w). rewrite Hc.
  destruct (flImpersonate (cfg w)); cbv zeta;
    match goal with
    | |- context [provider_NewTokenSource E ?src ?n] =>
        destruct (provider_NewTokenSource E src n)
    end; simpl; try reflexivity;
    match goal with
    | |- context [provider_Token E ?src ?n] => destruct (provider_Token E src n)
    end; simpl; now rewrite <- app_assoc.
Qed.

Lemma getIDToken_asks_for_audience_witness :
  calls (snd (getIDToken sampleExternal "https://b.example" keyFileWorld))
  = [CallNewTokenSource (oauth2.JSONIDToken "https://b.example" keyJSON);
     CallToken (oauth2.JSONIDToken "https://b.example" keyJSON)].
Proof.
  apply (getIDToken_asks_for_audience sampleExternal "https://b.example"
           keyFileWorld keyFileCredentials); reflexivity.
Defined.

(** ** Responses *)

(** [http.Error] on a response not yet written to: the status line goes
    out with the two headers [Error] sets, and the message follows. *)
Lemma Error_fresh (w : http.ResponseWriter) (msg : string) (code : Z) :
  http.wrote w = None ->
  http.Error w msg code
  = {| http.Header :=
         <["X-Content-Type-Options" := ["nosniff"]]>
           (<["Content-Type" := ["text/plain; charset=utf-8"]]> (http.Header w));
       http.wrote :=
         Some (code,
               <["X-Content-Type-Options" := ["nosniff"]]>
                 (<["Content-Type" := ["text/plain; charset=utf-8"]]> (http.Header w)));
       http.body := http.body w +:+ msg +:+ LF |}.
Proof.
  intros Hfresh. unfold http.Error, http.Write, http.WriteHeader, http.Header_Set.
  simpl. rewrite Hfresh. reflexivity.
Qed.

(** [Write] on a response not yet written to sends status 200 with the
    headers as they are. *)
Lemma Write_fresh (w : http.ResponseWriter) (data : string) :
  http.wrote w = None ->
  http.Write data w
  = {| http.Header := http.Header w;
       http.wrote := Some (200, http.Header w);
       http.body := http.body w +:+ data |}.
Proof.
  intros Hfresh. unfold http.Write, http.WriteHeader. rewrite Hfresh. reflexivity.
Qed.

(** ** The middleware *)

Example canonical_xss : CanonicalMIMEHeaderKey "X-XSS-Protection" = "X-Xss-Protection".
Proof. reflexivity. Qed.

Example canonical_flavor : CanonicalMIMEHeaderKey "Metadata-Flavor" = "Metadata-Flavor".
Proof. reflexivity. Qed.

Example canonical_lower : CanonicalMIMEHeaderKey "content-type" = "Content-Type".
Proof. reflexivity. Qed.

Example canonical_invalid : CanonicalMIMEHeaderKey "bad key" = "bad key".
Proof. reflexivity. Qed.

Example canonical_frame : CanonicalMIMEHeaderKey "X-Frame-Options" = "X-Frame-Options".
Proof. reflexivity. Qed.

Example canonical_server : CanonicalMIMEHeaderKey "Server" = "Server".
Proof. reflexivity. Qed.

(** The loop over [hostHeaders] finds the host exactly when it is one of
    the three names. *)
Lemma hasHostHeader_In (r : Incoming) : hasHostHeader r = true <-> In (Host r) hostHeaders.
Proof.
  unfold hasHostHeader, hostHeaders. cbn [fold_left In].
  destruct (String.eqb_spec "169.254.169.254" (Host r)) as [H3 | H3];
  destruct (String.eqb_spec "metadata.google.internal" (Host r)) as [H2 | H2];
  destruct (String.eqb_spec "metadata" (Host r)) as [H1 | H1];
  split; intros H; try reflexivity; try discriminate; try tauto.
Qed.

(** A request whose [Host] is none of the three metadata host names, or
    which has no [Metadata-Flavor] value and is not for the URI [/], is
    answered by the middleware itself: status 403, body [Forbidden], and
    the content type [text/plain] that [http.Error] sent (the [text/html]
    set afterwards comes too late).  The wrapped handler does not run and
    the state is as before. *)
Theorem checkMetadataHeaders_rejects
  (next : Handler) (w : http.ResponseWriter) (r : Incoming) (st : World) :
  http.wrote w = None ->
  ~ In (Host r) hostHeaders
  \/ (Header_Get (ReqHeader r) "Metadata-Flavor" = "" /\ RequestURI r <> "/") ->
  exists w',
    checkMetadataHeaders next w r st = (Return w', st)
    /\ http.StatusCode w' = 403
    /\ http.body w' = http.body w +:+ "Forbidden" +:+ LF
    /\ SentHeader w' "Content-Type" = ["text/plain; charset=utf-8"].
Proof.
  intros Hfresh Hbad. unfold checkMetadataHeaders. cbv zeta.
  assert (Hreject :
    negb (hasHostHeader r) = true
    \/ (negb (hasHostHeader r) = false
        /\ String.eqb (Header_Get (ReqHeader r) "Metadata-Flavor") ""
           && negb (String.eqb (RequestURI r) "/") = true)).
  { destruct (hasHostHeader r) eqn:Hhost; simpl.
    - right. split; [reflexivity |].
      destruct Hbad as [Hno | [Hflavor Huri]].
      + apply hasHostHeader_In in Hhost. contradiction.
      + rewrite Hflavor. simpl. now destruct (String.eqb_spec (RequestURI r) "/").
    - left. reflexivity. }
  destruct Hreject as [-> | [-> ->]];
    (eexists; split; [reflexivity |]);
    rewrite Error_fresh by exact Hfresh;
    unfold http.StatusCode, SentHeader, http.Header_Set; simpl;
    (split; [reflexivity |]); (split; [reflexivity |]);
    rewrite lookup_insert_ne by discriminate; rewrite lookup_insert_eq; reflexivity.
Qed.

Lemma checkMetadataHeaders_rejects_witness :
  exists w',
    checkMetadataHeaders (registered sampleExternal ProjectIDRoute)
      http.NewResponseWriter foreignHostRequest keyFileWorld
    = (Return w', keyFileWorld)
    /\ http.StatusCode w' = 403
    /\ http.body w' = http.body http.NewResponseWriter +:+ "Forbidden" +:+ LF
    /\ SentHeader w' "Content-Type" = ["text/plain; charset=utf-8"].
Proof.
  apply checkMetadataHeaders_rejects; [reflexivity |].
  left. simpl. intros [H | [H | [H | []]]]; discriminate.
Defined.

(** A request to one of the three host names that carries any non-empty
    [Metadata-Flavor] value (the value itself is not looked at), or that
    is for the URI [/], is handed to the wrapped handler with the four
    headers of the middleware added and nothing else changed. *)
Theorem checkMetadataHeaders_admits
  (next : Handler) (w : http.ResponseWriter) (r : Incoming) (st : World) :
  In (Host r) hostHeaders ->
  Header_Get (ReqHeader r) "Metadata-Flavor" <> "" \/ RequestURI r = "/" ->
  checkMetadataHeaders next w r st
  = next (http.Header_Add "X-Frame-Options" "0"
            (http.Header_Add "X-Xss-Protection" "0"
               (http.Header_Add "Metadata-Flavor" "Google"
                  (http.Header_Add "Server" "Metadata Server for VM" w)))) r st.
Proof.
  intros Hhost Hok. unfold checkMetadataHeaders. cbv zeta.
  apply hasHostHeader_In in Hhost. rewrite Hhost. simpl negb. cbv iota.
  assert (Hpass : String.eqb (Header_Get (ReqHeader r) "Metadata-Flavor") ""
                  && negb (String.eqb (RequestURI r) "/") = false).
  { destruct Hok as [Hflavor | ->].
    - destruct (String.eqb_spec (Header_Get (ReqHeader r) "Metadata-Flavor") "");
        [contradiction | reflexivity].
    - rewrite String.eqb_refl. simpl. apply andb_false_r. }
  rewrite Hpass. reflexivity.
Qed.

Lemma checkMetadataHeaders_admits_witness :
  checkMetadataHeaders (registered sampleExternal ProjectIDRoute)
    http.NewResponseWriter projectIDRequest keyFileWorld
  = registered sampleExternal ProjectIDRoute
      (http.Header_Add "X-Frame-Options" "0"
         (http.Header_Add "X-Xss-Protection" "0"
            (http.Header_Add "Metadata-Flavor" "Google"
               (http.Header_Add "Server" "Metadata Server for VM"
                  http.NewResponseWriter))))
      projectIDRequest keyFileWorld.
Proof.
  apply checkMetadataHeaders_admits.
  - simpl. auto.
  - left. vm_compute. discriminate.
Defined.

(** The middleware either answers itself, leaving the state alone, or
    hands over to the wrapped handler. *)
Lemma checkMetadataHeaders_cases
  (next : Handler) (w : http.ResponseWriter) (r : Incoming) (st : World) :
  (exists w', checkMetadataHeaders next w r st = (Return w', st))
  \/ checkMetadataHeaders next w r st
     = next (http.Header_Add "X-Frame-Options" "0"
               (http.Header_Add "X-Xss-Protection" "0"
                  (http.Header_Add "Metadata-Flavor" "Google"
                     (http.Header_Add "Server" "Metadata Server for VM" w)))) r st.
Proof.
  unfold checkMetadataHeaders. cbv zeta.
  destruct (negb (hasHostHeader r)); [left; eexists; reflexivity |].
  destruct (_ && _); [left; eexists; reflexivity | right; reflexivity].
Qed.

(** The root route is served to the three host names without any
    [Metadata-Flavor] header: [ok] with status 200 when the path of the URL
    is [/], and the 404 page otherwise; the state is as before. *)
Theorem root_needs_no_flavor
  (E : External) (w : http.ResponseWriter) (r : Incoming) (st : World) :
  http.wrote w = None ->
  In (Host r) hostHeaders -> RequestURI r = "/" ->
  exists w',
    routes E RootRoute w r st = (Return w', st)
    /\ (URL_Path r = "/" ->
        http.StatusCode w' = 200 /\ http.body w' = http.body w +:+ "ok")
    /\ (URL_Path r <> "/" ->
        http.StatusCode w' = 404
        /\ http.body w' = http.body w +:+ "404 page not found" +:+ LF).
Proof.
  intros Hfresh Hhost Huri. unfold routes, checkMetadataHeaders. cbv zeta.
  apply hasHostHeader_In in Hhost. rewrite Hhost, Huri.
  change (negb (String.eqb "/" "/")) with false. rewrite andb_false_r.
  change (negb true) with false. cbv iota.
  unfold registered, rootHandler, http_NotFound, Fprint.
  destruct (String.eqb_spec (URL_Path r) "/") as [Hpath | Hpath]; simpl;
    eexists; (split; [reflexivity |]);
    rewrite ?Error_fresh, ?Write_fresh by exact Hfresh;
    split; intros Hp; try contradiction; split; reflexivity.
Qed.

Lemma root_needs_no_flavor_witness :
  exists w',
    routes sampleExternal RootRoute http.NewResponseWriter rootRequest keyFileWorld
    = (Return w', keyFileWorld)
    /\ (URL_Path rootRequest = "/" ->
        http.StatusCode w' = 200
        /\ http.body w' = http.body http.NewResponseWriter +:+ "ok")
    /\ (URL_Path rootRequest <> "/" ->
        http.StatusCode w' = 404
        /\ http.body w'
           = http.body http.NewResponseWriter +:+ "404 page not found" +:+ LF).
Proof.
  apply root_needs_no_flavor; [reflexivity | | reflexivity].
  simpl. auto.
Defined.

(** ** What every response carries *)







(** ** The keys of a service account *)

(** A service-account key other than [aliases], [email], [identity],
    [scopes] and [token] (the comparison is exact, so [Token] is such a
    key) is answered with status 404 and the body [Not Found]; the state
    is as before. *)
Theorem unknown_key_not_found
  (E : External) (w : http.ResponseWriter) (r : http.Request) (st : World) :
  http.wrote w = None ->
  ~ In (vars r "key") ["aliases"; "email"; "identity"; "scopes"; "token"] ->
  exists w',
    getServiceAccountHandler E w r st = (Return w', st)
    /\ http.StatusCode w' = 404
    /\ http.body w' = http.body w +:+ "Not Found" +:+ LF.
Proof.
  intros Hfresh Hkey. unfold getServiceAccountHandler. cbv zeta.
  repeat match goal with
         | |- context [if String.eqb ?a ?b then _ else _] =>
             destruct (String.eqb_spec a b) as [Heq | _];
             [exfalso; apply Hkey; rewrite Heq; simpl; tauto |]
         end.
  eexists. split; [reflexivity |].
  rewrite Error_fresh by exact Hfresh. split; reflexivity.
Qed.

Lemma unknown_key_not_found_witness :
  exists w',
    getServiceAccountHandler sampleExternal http.NewResponseWriter
      (sampleRequest "default" "Token" ∅) keyFileWorld = (Return w', keyFileWorld)
    /\ http.StatusCode w' = 404
    /\ http.body w' = http.body http.NewResponseWriter +:+ "Not Found" +:+ LF.
Proof.
  apply unknown_key_not_found; [reflexivity |].
  vm_compute. intros [H | [H | [H | [H | [H | []]]]]]; discriminate.
Defined.

(** The [token] key does to the state what [getAccessToken] does.  When
    [getAccessToken] returns a token that marshals, the response is 200
    with the JSON as body and [application/json] as content type; when it
    returns an error, the response is 500 with the fixed body
    [Internal Server Error], which carries nothing of the error. *)
Theorem token_key_response
  (E : External) (w : http.ResponseWriter) (r : http.Request) (st : World) :
  http.wrote w = None -> vars r "key" = "token" ->
  snd (getServiceAccountHandler E w r st) = snd (getAccessToken E st)
  /\ (forall tok js,
        fst (getAccessToken E st) = Return (tok, None) ->
        json_Marshal_metadataToken E tok = Ok js ->
        exists w',
          fst (getServiceAccountHandler E w r st) = Return w'
          /\ http.StatusCode w' = 200
          /\ http.body w' = http.body w +:+ js
          /\ SentHeader w' "Content-Type" = ["application/json"])
  /\ (forall tok err,
        fst (getAccessToken E st) = Return (tok, Some err) ->
        exists w',
          fst (getServiceAccountHandler E w r st) = Return w'
          /\ http.StatusCode w' = 500
          /\ http.body w' = http.body w +:+ "Internal Server Error" +:+ LF).
Proof.
  intros Hfresh Hkey. unfold getServiceAccountHandler. cbv zeta.
  rewrite Hkey. simpl.
  destruct (getAccessToken E st) as [[[tok [err |]] | | code] st'] eqn:Hget; simpl.
  - split; [reflexivity |]. split; intros tok' x Heq; [discriminate |].
    eexists. split; [reflexivity |].
    rewrite Error_fresh by exact Hfresh. split; reflexivity.
  - split; [now destruct (json_Marshal_metadataToken E tok) |].
    split; [| discriminate].
    intros tok' js Heq Hjs. injection Heq as <-. rewrite Hjs.
    eexists. split; [reflexivity |].
    rewrite Write_fresh by exact Hfresh.
    unfold http.StatusCode, SentHeader, http.Header_Set. simpl.
    rewrite lookup_insert_eq. auto.
  - split; [reflexivity |]. split; discriminate.
  - split; [reflexivity |]. split; discriminate.
Qed.

Lemma token_key_response_witness :
  snd (getServiceAccountHandler sampleExternal http.NewResponseWriter
         (sampleRequest "default" "token" ∅) keyFileWorld)
  = snd (getAccessToken sampleExternal keyFileWorld).
Proof.
  apply (token_key_response sampleExternal http.NewResponseWriter
           (sampleRequest "default" "token" ∅) keyFileWorld); reflexivity.
Defined.

(** When [getIDToken] returns an error, the [identity] key answers 500
    with the fixed body [Internal Server Error], which carries nothing of
    the error. *)
Theorem identity_key_failure
  (E : External) (w : http.ResponseWriter) (r : http.Request) (st : World)
  (k0 idtok : string) (rest : list string) (err : error) :
  http.wrote w = None ->
  vars r "key" = "identity" -> http.Query r !! "audience" = Some (k0 :: rest) ->
  fst (getIDToken E k0 st) = Return (idtok, Some err) ->
  exists w',
    fst (getServiceAccountHandler E w r st) = Return w'
    /\ http.StatusCode w' = 500
    /\ http.body w' = http.body w +:+ "Internal Server Error" +:+ LF.
Proof.
  intros Hfresh Hkey Hq Herr. unfold getServiceAccountHandler. cbv zeta.
  rewrite Hkey, Hq. simpl.
  destruct (getIDToken E k0 st) as [[[x [e |]] | | code] st']; simpl in Herr;
    try discriminate.
  simpl. eexists. split; [reflexivity |].
  rewrite Error_fresh by exact Hfresh. split; reflexivity.
Qed.

Lemma identity_key_failure_witness :
  exists w',
    fst (getServiceAccountHandler failingExternal http.NewResponseWriter
           (sampleRequest "default" "identity" {[ "audience" := ["https://a.example"] ]})
           keyFileWorld) = Return w'
    /\ http.StatusCode w' = 500
    /\ http.body w' = http.body http.NewResponseWriter +:+ "Internal Server Error" +:+ LF.
Proof.
  apply (identity_key_failure failingExternal http.NewResponseWriter
           (sampleRequest "default" "identity" {[ "audience" := ["https://a.example"] ]})
           keyFileWorld "https://a.example" "" [] "oauth2: cannot fetch token");
    [reflexivity | reflexivity | reflexivity | vm_compute; reflexivity].
Defined.

(** The three places that report the service-account email agree: the
    account list names [default/] and then the email, the index of an
    account has the same email in its [Email] field, and the [email] key
    answers it. *)
Theorem service_account_email_agrees
  (E : External) (w : http.ResponseWriter) (r : http.Request) (st : World)
  (email : string) :
  http.wrote w = None ->
  getServiceAccountEmail E st = Return email ->
  (exists w',
     listServiceAccountHandler E w r st = (Return w', st)
     /\ http.body w' = http.body w +:+ "default/" +:+ LF +:+ email +:+ "/" +:+ LF)
  /\ (exists d, indexDetails E r st = Return d /\ Email d = email)
  /\ (vars r "key" = "email" ->
      exists w',
        getServiceAccountHandler E w r st = (Return w', st)
        /\ http.body w' = http.body w +:+ email).
Proof.
  intros Hfresh Hemail.
  unfold listServiceAccountHandler, indexDetails, getServiceAccountHandler. cbv zeta.
  rewrite Hemail. split; [| split].
  - eexists. split; [reflexivity |]. unfold Fprint.
    rewrite Write_fresh by exact Hfresh. reflexivity.
  - eexists. split; reflexivity.
  - intros ->. simpl. eexists. split; [reflexivity |]. unfold Fprint.
    rewrite Write_fresh by exact Hfresh. reflexivity.
Qed.

Lemma service_account_email_agrees_witness :
  exists w',
    listServiceAccountHandler sampleExternal http.NewResponseWriter
      (sampleRequest "" "" ∅) keyFileWorld = (Return w', keyFileWorld)
    /\ http.body w'
       = http.body http.NewResponseWriter
         +:+ "default/" +:+ LF +:+ "sa@key.example" +:+ "/" +:+ LF.
Proof.
  apply (service_account_email_agrees sampleExternal http.NewResponseWriter
           (sampleRequest "" "" ∅) keyFileWorld "sa@key.example").
  - reflexivity.
  - vm_compute. reflexivity.
Defined.

(** [Split] returns at least one field. *)
Lemma Split_nonempty (s : string) (sep : ascii) : Split s sep <> [].
Proof.
  destruct s as [| c rest]; simpl; [discriminate |].
  destruct (Ascii.eqb c sep); [discriminate |].
  destruct (Split rest sep); discriminate.
Qed.

(** The loop over the fields writes the string with a line feed for
    every comma, and one more line feed. *)
Lemma scopes_fold (s acc : string) :
  fold_left (fun scopes e => scopes +:+ e +:+ LF) (Split s ",") acc
  = acc +:+ ReplaceByte "," "010" s +:+ LF.
Proof.
  revert acc. induction s as [| c rest IH]; intros acc; [reflexivity |].
  simpl. destruct (Ascii.eqb c ",") eqn:Hc.
  - simpl. rewrite IH. change LF with (String "010" "").
    rewrite !append_assoc. reflexivity.
  - pose proof (Split_nonempty rest ",") as Hne.
    destruct (Split rest ",") as [| field fields] eqn:Hsplit; [contradiction |].
    simpl. specialize (IH (acc +:+ String c "")). simpl in IH.
    rewrite !append_assoc in IH. simpl in IH.
    exact IH.
Qed.

(** The scopes are rendered as the [tokenScopes] flag with every comma
    turned into a line feed, followed by one more line feed; an empty flag
    renders as a single line feed.  The [scopes] key answers that text and
    the index of an account carries the same text in its [Scopes] field. *)
Theorem scopes_rendering
  (E : External) (w : http.ResponseWriter) (r : http.Request) (st : World) :
  http.wrote w = None ->
  scopeLines st = ReplaceByte "," "010" (fltokenScopes (cfg st)) +:+ LF
  /\ (vars r "key" = "scopes" ->
      exists w',
        getServiceAccountHandler E w r st = (Return w', st)
        /\ http.body w'
           = http.body w +:+ ReplaceByte "," "010" (fltokenScopes (cfg st)) +:+ LF)
  /\ (forall d, indexDetails E r st = Return d ->
        Scopes d = ReplaceByte "," "010" (fltokenScopes (cfg st)) +:+ LF).
Proof.
  intros Hfresh.
  assert (Hlines : scopeLines st = ReplaceByte "," "010" (fltokenScopes (cfg st)) +:+ LF).
  { unfold scopeLines. rewrite scopes_fold. reflexivity. }
  split; [exact Hlines |]. split.
  - intros Hkey. unfold getServiceAccountHandler. cbv zeta. rewrite Hkey. simpl.
    eexists. split; [reflexivity |]. unfold Fprint.
    rewrite Write_fresh by exact Hfresh. simpl. now rewrite Hlines.
  - intros d. unfold indexDetails. cbv zeta.
    destruct (getServiceAccountEmail E st); intros Heq; try discriminate.
    injection Heq as <-. exact Hlines.
Qed.

Lemma scopes_rendering_witness :
  scopeLines keyFileWorld
  = ReplaceByte "," "010" (fltokenScopes (cfg keyFileWorld)) +:+ LF.
Proof.
  apply (scopes_rendering sampleExternal http.NewResponseWriter
           (sampleRequest "default" "scopes" ∅) keyFileWorld).
  reflexivity.
Defined.

(** [Join] puts the separator between a field and the fields after it. *)
Lemma Join_cons (field : string) (fields : list string) (sep : string) :
  fields <> [] -> Join (field :: fields) sep = field +:+ sep +:+ Join fields sep.
Proof. destruct fields; [contradiction | reflexivity]. Qed.

(** Counting a byte distributes over concatenation. *)
Lemma count_app (c : ascii) (s1 s2 : string) :
  count c (s1 +:+ s2) = (count c s1 + count c s2)%nat.
Proof.
  induction s1 as [| c' s1 IH]; [reflexivity |].
  change (String c' s1 +:+ s2) with (String c' (s1 +:+ s2)). simpl. rewrite IH. lia.
Qed.

(** The scope list that is split off the [tokenScopes] flag loses
    nothing: joined with commas it is the flag again, it has one field
    more than the flag has commas (so one empty field for an empty flag),
    and no field contains a comma. *)
Theorem scopes_split_round_trip (s : string) :
  Join (Split s ",") "," = s
  /\ length (Split s ",") = S (count "," s)
  /\ Forall (fun field => count "," field = O) (Split s ",").
Proof.
  induction s as [| c rest IH].
  - simpl. repeat split. constructor; [reflexivity | constructor].
  - destruct IH as (IHjoin & IHlen & IHno).
    simpl. destruct (Ascii.eqb c ",") eqn:Hc.
    + apply Ascii.eqb_eq in Hc. subst c.
      rewrite Join_cons by apply Split_nonempty. rewrite IHjoin.
      simpl. rewrite IHlen. repeat split. constructor; [reflexivity | assumption].
    + pose proof (Split_nonempty rest ",") as Hne.
      destruct (Split rest ",") as [| field fields]; [contradiction |].
      apply Forall_cons in IHno as [Hfield Hfields].
      split; [| split].
      * destruct fields as [| f2 fields].
        -- simpl in *. now rewrite IHjoin.
        -- change (Join (String c field :: f2 :: fields) ",")
             with (String c (field +:+ "," +:+ Join (f2 :: fields) ",")).
           change (Join (field :: f2 :: fields) ",")
             with (field +:+ "," +:+ Join (f2 :: fields) ",") in IHjoin.
           now rewrite IHjoin.
      * simpl in *. lia.
      * constructor; [| assumption]. simpl. now rewrite Hc, Hfield.
Qed.

(** ** What requests change, and what they cannot do *)

(** Only the [token] and [identity] keys of a service account change the
    state: every other request, whatever its route, host and headers,
    leaves the environment, the flags, the credentials, the attribute
    store, the mutex and the log of provider calls exactly as they were. *)
Theorem read_only_routes
  (E : External) (rt : route) (w : http.ResponseWriter) (r : Incoming) (st : World) :
  (rt = ServiceAccountKeyRoute ->
   vars (routed r) "key" <> "identity" /\ vars (routed r) "key" <> "token") ->
  snd (routes E rt w r st) = st.
Proof.
  intros Hkey. unfold routes.
  destruct (checkMetadataHeaders_cases (registered E rt) w r st) as [[w' ->] | ->];
    [reflexivity |].
  destruct rt;
    try (unfold registered, HandlerFunc, rootHandler, projectIDHandler,
           numericProjectIDHandler, attributesHandler, listServiceAccountHandler,
           getServiceAccountIndexHandler, indexDetails, notFound; cbv zeta;
         handler_cases E st; reflexivity).
  destruct (Hkey eq_refl) as [Hid Htok].
  unfold registered, HandlerFunc, getServiceAccountHandler. cbv zeta.
  destruct (String.eqb_spec (vars (routed r) "key") "identity"); [contradiction |].
  destruct (String.eqb_spec (vars (routed r) "key") "token"); [contradiction |].
  handler_cases E st; reflexivity.
Qed.

Lemma read_only_routes_witness :
  snd (routes sampleExternal AttributesRoute http.NewResponseWriter
         attributeRequest keyFileWorld) = keyFileWorld.
Proof. apply read_only_routes. intros H. discriminate. Defined.

(** Both token functions return with the mutex released. *)
Lemma getIDToken_unlocks (E : External) (a : string) (w : World) :
  tokenMutex (snd (getIDToken E a w)) = false.
Proof. unfold getIDToken. destruct (getIDToken_body E a (Lock w)); reflexivity. Qed.

Lemma getAccessToken_unlocks (E : External) (w : World) :
  tokenMutex (snd (getAccessToken E w)) = false.
Proof. unfold getAccessToken. destruct (getAccessToken_body E (Lock w)); reflexivity. Qed.

(** The token functions do not panic in a process that is ready, and
    they leave it ready. *)
Lemma getIDToken_ready (E : External) (a : string) (st : World) :
  ready st ->
  fst (getIDToken E a st) <> Panic /\ ready (snd (getIDToken E a st)).
Proof.
  intros [Hfree Hcreds]. split.
  - unfold getIDToken, getIDToken_body.
    rewrite isEnvironmentOverrideSet_Lock.
    destruct (isEnvironmentOverrideSet st); [simpl; discriminate |].
    destruct (Hcreds eq_refl) as [c Hc].
    change (creds (Lock st)) with (creds st). rewrite Hc.
    destruct (flImpersonate (cfg (Lock st))); cbv zeta;
      match goal with
      | |- context [provider_NewTokenSource E ?src ?n] =>
          destruct (provider_NewTokenSource E src n)
      end; simpl; try discriminate;
      match goal with
      | |- context [provider_Token E ?src ?n] => destruct (provider_Token E src n)
      end; simpl; discriminate.
  - pose proof (getIDToken_frame E a st) as (Henv & _ & Hsame & _).
    split; [apply getIDToken_unlocks |].
    rewrite (isEnvironmentOverrideSet_environ st _ Henv), Hsame. exact Hcreds.
Qed.

Lemma getAccessToken_ready (E : External) (st : World) :
  ready st ->
  fst (getAccessToken E st) <> Panic /\ ready (snd (getAccessToken E st)).
Proof.
  intros [Hfree Hcreds]. split.
  - destruct (isEnvironmentOverrideSet st) eqn:Hov.
    + rewrite getAccessToken_override by assumption. discriminate.
    + destruct (Hcreds eq_refl) as [c Hc].
      rewrite (getAccessToken_resolved E st c) by assumption.
      destruct (Token E (google.TokenSource c) (Lock st)) as [[t | err] w1];
        discriminate.
  - pose proof (getAccessToken_frame E st) as (Henv & _ & _ & Hsame).
    split; [apply getAccessToken_unlocks |].
    rewrite (isEnvironmentOverrideSet_environ st _ Henv).
    intros Hov. rewrite (Hsame Hov). exact (Hcreds Hov).
Qed.

Lemma getProjectID_ready (st : World) : ready st -> getProjectID st <> Panic.
Proof.
  intros [_ Hcreds]. unfold getProjectID.
  destruct (isEnvironmentOverrideSet st); [discriminate |].
  destruct (nonempty _); [discriminate |].
  destruct (Hcreds eq_refl) as [c ->]. discriminate.
Qed.

Lemma getServiceAccountEmail_ready (E : External) (st : World) :
  ready st -> getServiceAccountEmail E st <> Panic.
Proof.
  intros [_ Hcreds]. unfold getServiceAccountEmail.
  destruct (isEnvironmentOverrideSet st); [discriminate |].
  destruct (nonempty _); [discriminate |].
  destruct (Hcreds eq_refl) as [c ->].
  destruct (google_JWTConfigFromJSON E _ _); discriminate.
Qed.

(** No registered handler panics in a process that is ready, and each
    leaves it ready. *)
Lemma registered_ready
  (E : External) (rt : route) (w : http.ResponseWriter) (r : Incoming) (st : World) :
  ready st -> wellFormed r ->
  fst (registered E rt w r st) <> Panic /\ ready (snd (registered E rt w r st)).
Proof.
  intros Hready Hwf.
  pose proof (getProjectID_ready st Hready) as Hproj.
  pose proof (getServiceAccountEmail_ready E st Hready) as Hemail.
  destruct rt; unfold registered, HandlerFunc, rootHandler, projectIDHandler,
    numericProjectIDHandler, attributesHandler, listServiceAccountHandler,
    getServiceAccountIndexHandler, indexDetails, notFound; cbv zeta.
  - destruct (getProjectID st); simpl; split; congruence || assumption.
  - simpl. split; [discriminate | assumption].
  - destruct (customAttributeMap st !! _); simpl; split; discriminate || assumption.
  - destruct (getServiceAccountEmail E st); simpl; split; congruence || assumption.
  - destruct (getServiceAccountEmail E st); simpl; try (split; congruence || assumption).
    destruct (json_Marshal_serviceAccountDetails E _); simpl;
      split; discriminate || assumption.
  - unfold getServiceAccountHandler.
    destruct (String.eqb _ "aliases"); [simpl; split; discriminate || assumption |].
    destruct (String.eqb _ "email").
    { destruct (getServiceAccountEmail E st); simpl; split; congruence || assumption. }
    destruct (String.eqb _ "identity").
    { unfold wellFormed in Hwf.
      destruct (http.Query (routed r) !! "audience") as [[| k0 k] |];
        [congruence | | simpl; split; discriminate || assumption].
      pose proof (getIDToken_ready E k0 st Hready) as [Hno Hnext].
      destruct (getIDToken E k0 st) as [[[idtok [err |]] | | code] st'];
        simpl in *; split; congruence || assumption. }
    destruct (String.eqb _ "scopes"); [simpl; split; discriminate || assumption |].
    destruct (String.eqb _ "token"); [| simpl; split; discriminate || assumption].
    pose proof (getAccessToken_ready E st Hready) as [Hno Hnext].
    destruct (getAccessToken E st) as [[[tok [err |]] | | code] st'];
      simpl in *; try (split; congruence || assumption).
    destruct (json_Marshal_metadataToken E tok); simpl; split; discriminate || assumption.
  - destruct (negb _); simpl; split; discriminate || assumption.
  - simpl. split; [discriminate | assumption].
Qed.

Lemma routes_ready
  (E : External) (rt : route) (w : http.ResponseWriter) (r : Incoming) (st : World) :
  ready st -> wellFormed r ->
  fst (routes E rt w r st) <> Panic /\ ready (snd (routes E rt w r st)).
Proof.
  intros Hready Hwf. unfold routes.
  destruct (checkMetadataHeaders_cases (registered E rt) w r st) as [[w' ->] | ->].
  - simpl. split; [discriminate | assumption].
  - now apply registered_ready.
Qed.

Lemma after_ready (E : External) (reqs : list (route * Incoming)) (st : World) :
  ready st -> Forall (fun q => wellFormed (snd q)) reqs -> ready (after E reqs st).
Proof.
  unfold after. revert st.
  induction reqs as [| [rt r] reqs IH]; intros st Hready Hwf; [exact Hready |].
  inversion Hwf as [| ? ? Hr Hrest]; subst. simpl.
  apply IH; [| assumption]. now apply routes_ready.
Qed.

(** A process that has started is ready. *)
Lemma startup_ready
  (E : External) (env : gmap string string) (c : serverConfig) (st : World) :
  startup E env c = Return st -> ready st.
Proof.
  unfold startup. intros Hstart.
  destruct (resolve E (initial env c)) as [w0 | | code] eqn:Hres; try discriminate.
  injection Hstart as <-.
  pose proof (resolve_credentials E (initial env c) w0 eq_refl Hres)
    as (Henv & _ & Hm & _ & _ & _ & Hsome).
  pose proof (setCustomAttributes_frame E (flcustomAttributeFile (cfg w0)) w0)
    as (Henv' & _ & Hcreds' & Hm' & _).
  cbv zeta in *. split; [rewrite Hm', Hm; reflexivity |].
  rewrite (isEnvironmentOverrideSet_environ w0 _ Henv'), Hcreds'.
  rewrite (isEnvironmentOverrideSet_environ (initial env c) w0 Henv). exact Hsome.
Qed.

(** No request changes the environment or the flags. *)
Lemma routes_environ
  (E : External) (rt : route) (w : http.ResponseWriter) (r : Incoming) (st : World) :
  environ (snd (routes E rt w r st)) = environ st
  /\ cfg (snd (routes E rt w r st)) = cfg st.
Proof.
  unfold routes.
  destruct (checkMetadataHeaders_cases (registered E rt) w r st) as [[w' ->] | ->];
    [simpl; auto |].
  destruct rt; unfold registered, HandlerFunc, rootHandler, projectIDHandler,
    numericProjectIDHandler, attributesHandler, listServiceAccountHandler,
    getServiceAccountIndexHandler, indexDetails, notFound; cbv zeta;
    repeat match goal with
           | |- context [match getProjectID st with _ => _ end] =>
               destruct (getProjectID st)
           | |- context [match customAttributeMap st !! ?k with _ => _ end] =>
               destruct (customAttributeMap st !! k)
           | |- context [match getServiceAccountEmail E st with _ => _ end] =>
               destruct (getServiceAccountEmail E st)
           | |- context [match json_Marshal_serviceAccountDetails E ?d with _ => _ end] =>
               destruct (json_Marshal_serviceAccountDetails E d)
           | |- context [if negb ?b then _ else _] => destruct (negb b)
           end; simpl; auto.
  unfold getServiceAccountHandler.
  repeat match goal with
         | |- context [if String.eqb ?a ?b then _ else _] => destruct (String.eqb a b)
         | |- context [match getServiceAccountEmail E st with _ => _ end] =>
             destruct (getServiceAccountEmail E st)
         | |- context [match http.Query ?q !! "audience" with _ => _ end] =>
             destruct (http.Query q !! "audience") as [[| k0 k] |]
         end; simpl; auto.
  - pose proof (getIDToken_frame E k0 st) as (Henv & Hcfg & _).
    destruct (getIDToken E k0 st) as [[[? [? |]] | | ?] ?]; simpl in *; auto.
  - pose proof (getAccessToken_frame E st) as (Henv & Hcfg & _).
    destruct (getAccessToken E st) as [[[tok [? |]] | | ?] ?]; simpl in *; auto.
    destruct (json_Marshal_metadataToken E tok); simpl; auto.
Qed.

Lemma after_environ (E : External) (reqs : list (route * Incoming)) (st : World) :
  environ (after E reqs st) = environ st /\ cfg (after E reqs st) = cfg st.
Proof.
  unfold after. revert st.
  induction reqs as [| [rt r] reqs IH]; intros st; [auto |].
  simpl. destruct (IH (snd (routes E rt http.NewResponseWriter r st))) as [-> ->].
  apply routes_environ.
Qed.

(** After a successful startup no request panics, whatever requests were
    served before it: in particular [creds] is never dereferenced while it
    is nil, and every request finds the mutex free. *)
Theorem serving_never_panics
  (E : External) (env : gmap string string) (c : serverConfig) (st : World)
  (reqs : list (route * Incoming)) (rt : route) (w : http.ResponseWriter) (r : Incoming) :
  startup E env c = Return st ->
  Forall (fun q => wellFormed (snd q)) reqs -> wellFormed r ->
  fst (routes E rt w r (after E reqs st)) <> Panic
  /\ tokenMutex (after E reqs st) = false.
Proof.
  intros Hstart Hreqs Hwf.
  pose proof (after_ready E reqs st (startup_ready E env c st Hstart) Hreqs) as Hready.
  split; [now apply routes_ready | apply Hready].
Qed.

Lemma serving_never_panics_witness :
  fst (routes sampleExternal ServiceAccountKeyRoute http.NewResponseWriter
         accessTokenRequest
         (after sampleExternal
            [(ServiceAccountKeyRoute, identityRequest);
             (ProjectIDRoute, foreignHostRequest);
             (ServiceAccountKeyRoute, accessTokenRequest)] keyFileWorld))
  <> Panic
  /\ tokenMutex
       (after sampleExternal
          [(ServiceAccountKeyRoute, identityRequest);
           (ProjectIDRoute, foreignHostRequest);
           (ServiceAccountKeyRoute, accessTokenRequest)] keyFileWorld) = false.
Proof.
  apply (serving_never_panics sampleExternal ∅ keyFileConfig keyFileWorld).
  - vm_compute. reflexivity.
  - repeat constructor; vm_compute; discriminate.
  - vm_compute. discriminate.
Defined.

(** Startup with impersonation returns only when the service-account
    email flag is set. *)
Lemma startup_impersonation_email
  (E : External) (env : gmap string string) (c : serverConfig) (st : World) :
  startup E env c = Return st ->
  isEnvironmentOverrideSet (initial env c) = false -> flImpersonate c = true ->
  flserviceAccountEmail c <> "".
Proof.
  unfold startup, resolve. intros Hstart Hov Himp. rewrite Hov in Hstart.
  simpl in Hstart. rewrite Himp in Hstart.
  destruct (String.eqb_spec (flserviceAccountEmail c) "") as [Hempty | Hne];
    [| exact Hne].
  rewrite !orb_true_r in Hstart. discriminate.
Qed.

(** [getServiceAccountEmail] ends the process only with code 1, and only
    when neither the override nor the flag provides the email. *)
Lemma getServiceAccountEmail_exit (E : External) (st : World) (code : Z) :
  getServiceAccountEmail E st = Exit code ->
  code = 1 /\ isEnvironmentOverrideSet st = false /\ flserviceAccountEmail (cfg st) = "".
Proof.
  unfold getServiceAccountEmail.
  destruct (isEnvironmentOverrideSet st); [discriminate |].
  destruct (nonempty (flserviceAccountEmail (cfg st))) eqn:Hflag; [discriminate |].
  apply nonempty_false in Hflag.
  destruct (creds st) as [c |]; [| discriminate].
  destruct (google_JWTConfigFromJSON E _ _); [discriminate |].
  intros Heq. injection Heq as <-. auto.
Qed.

(** The token functions never end the process. *)
Lemma getAccessToken_no_exit (E : External) (st : World) (code : Z) :
  fst (getAccessToken E st) <> Exit code.
Proof.
  unfold getAccessToken, getAccessToken_body.
  set (w0 := if isEnvironmentOverrideSet (Lock st) then _ else Lock st).
  destruct (creds w0) as [c |]; [| simpl; discriminate].
  destruct (Token E (google.TokenSource c) w0) as [[t | err] w1]; simpl; discriminate.
Qed.

Lemma getIDToken_no_exit (E : External) (a : string) (st : World) (code : Z) :
  fst (getIDToken E a st) <> Exit code.
Proof.
  unfold getIDToken, getIDToken_body.
  destruct (isEnvironmentOverrideSet (Lock st)); [simpl; discriminate |].
  destruct (match flImpersonate (cfg (Lock st)) with true => _ | false => _ end)
    as [src |]; [| simpl; discriminate].
  cbv zeta.
  destruct (provider_NewTokenSource E src _); [simpl; discriminate |].
  destruct (Token E src _) as [[tok | err] w1]; simpl; discriminate.
Qed.

(** A handler that ends the process is one that reads the
    service-account email. *)
Lemma registered_exit
  (E : External) (rt : route) (w : http.ResponseWriter) (r : Incoming) (st : World)
  (code : Z) :
  fst (registered E rt w r st) = Exit code ->
  code = 1 /\ isEnvironmentOverrideSet st = false /\ flserviceAccountEmail (cfg st) = ""
  /\ In rt [ServiceAccountsRoute; ServiceAccountRoute; ServiceAccountKeyRoute].
Proof.
  assert (Hproj : forall code', getProjectID st <> Exit code').
  { intros code'. unfold getProjectID.
    destruct (isEnvironmentOverrideSet st); [discriminate |].
    destruct (nonempty _); [discriminate |]. destruct (creds st); discriminate. }
  pose proof (getServiceAccountEmail_exit E st) as Hemail.
  destruct rt; unfold registered, HandlerFunc, rootHandler, projectIDHandler,
    numericProjectIDHandler, attributesHandler, listServiceAccountHandler,
    getServiceAccountIndexHandler, indexDetails, notFound; cbv zeta.
  - destruct (getProjectID st) eqn:Hp; simpl; try discriminate.
    intros Heq. injection Heq as <-. now destruct (Hproj code0).
  - discriminate.
  - destruct (customAttributeMap st !! _); discriminate.
  - destruct (getServiceAccountEmail E st) eqn:He; simpl; try discriminate.
    intros Heq. injection Heq as <-.
    destruct (Hemail _ eq_refl) as (-> & ? & ?). simpl. auto 10.
  - destruct (getServiceAccountEmail E st) eqn:He; simpl; try discriminate.
    + destruct (json_Marshal_serviceAccountDetails E _); discriminate.
    + intros Heq. injection Heq as <-.
      destruct (Hemail _ eq_refl) as (-> & ? & ?). simpl. auto 10.
  - unfold getServiceAccountHandler.
    destruct (String.eqb _ "aliases"); [discriminate |].
    destruct (String.eqb _ "email").
    { destruct (getServiceAccountEmail E st) eqn:He; simpl; try discriminate.
      intros Heq. injection Heq as <-.
      destruct (Hemail _ eq_refl) as (-> & ? & ?). simpl. auto 10. }
    destruct (String.eqb _ "identity").
    { destruct (http.Query (routed r) !! "audience") as [[| k0 k] |]; try discriminate.
      pose proof (getIDToken_no_exit E k0 st) as Hno.
      destruct (getIDToken E k0 st) as [[[idtok [err |]] | | code'] st'];
        simpl in *; try discriminate.
      now destruct (Hno code'). }
    destruct (String.eqb _ "scopes"); [discriminate |].
    destruct (String.eqb _ "token"); [| discriminate].
    pose proof (getAccessToken_no_exit E st) as Hno.
    destruct (getAccessToken E st) as [[[tok [err |]] | | code'] st'];
      simpl in *; try discriminate.
    + destruct (json_Marshal_metadataToken E tok); discriminate.
    + now destruct (Hno code').
  - destruct (negb _); discriminate.
  - discriminate.
Qed.

(** A request can end the whole process, but only in one way: with exit
    code 1, on one of the three service-account routes, in a process that
    was started from a key file without the [serviceAccountEmail] flag.
    With the override or with impersonation no request ever ends the
    process. *)
Theorem request_time_exit
  (E : External) (env : gmap string string) (c : serverConfig) (st : World)
  (reqs : list (route * Incoming)) (rt : route) (w : http.ResponseWriter) (r : Incoming)
  (code : Z) :
  startup E env c = Return st ->
  fst (routes E rt w r (after E reqs st)) = Exit code ->
  code = 1
  /\ isEnvironmentOverrideSet (initial env c) = false
  /\ flImpersonate c = false
  /\ flserviceAccountEmail c = ""
  /\ In rt [ServiceAccountsRoute; ServiceAccountRoute; ServiceAccountKeyRoute].
Proof.
  intros Hstart Hexit.
  assert (Hinit : environ st = env /\ cfg st = c).
  { unfold startup in Hstart.
    destruct (resolve E (initial env c)) as [w0 | | x] eqn:Hres; try discriminate.
    injection Hstart as <-.
    pose proof (resolve_credentials E (initial env c) w0 eq_refl Hres)
      as (Henv & Hcfg & _).
    pose proof (setCustomAttributes_frame E (flcustomAttributeFile (cfg w0)) w0)
      as (Henv' & Hcfg' & _).
    cbv zeta in *. split; [rewrite Henv', Henv | rewrite Hcfg', Hcfg]; reflexivity. }
  destruct Hinit as [Henv Hcfg].
  destruct (after_environ E reqs st) as [Henv' Hcfg'].
  unfold routes in Hexit.
  destruct (checkMetadataHeaders_cases (registered E rt) w r (after E reqs st))
    as [[w' Heq] | Heq]; rewrite Heq in Hexit; [discriminate |].
  apply registered_exit in Hexit as (-> & Hov & Hemail & Hrt).
  assert (Hov0 : isEnvironmentOverrideSet (initial env c) = false).
  { rewrite <- Hov. symmetry. apply isEnvironmentOverrideSet_environ.
    rewrite Henv'. exact Henv. }
  rewrite Hcfg', Hcfg in Hemail.
  repeat split; try assumption.
  destruct (flImpersonate c) eqn:Himp; [| reflexivity].
  exfalso. exact (startup_impersonation_email E env c st Hstart Hov0 Himp Hemail).
Qed.

Lemma request_time_exit_witness :
  1 = 1
  /\ isEnvironmentOverrideSet (initial ∅ keyFileConfig) = false
  /\ flImpersonate keyFileConfig = false
  /\ flserviceAccountEmail keyFileConfig = ""
  /\ In ServiceAccountsRoute
       [ServiceAccountsRoute; ServiceAccountRoute; ServiceAccountKeyRoute].
Proof.
  apply (request_time_exit failingExternal ∅ keyFileConfig keyFileWorld
           [(ProjectIDRoute, projectIDRequest)] ServiceAccountsRoute
           http.NewResponseWriter accountsRequest 1).
  - vm_compute. reflexivity.
  - vm_compute. reflexivity.
Defined.

(** ** Loading attributes *)

(** After a file has been loaded into the attribute store, a key of the
    file answers its value and every other key, the seeded [k1] and [k2]
    included, answers the text [404]; both with status 200. *)
Theorem attributes_after_load
  (E : External) (path file : string) (data : gmap string string)
  (w : http.ResponseWriter) (r : http.Request) (st : World) :
  http.wrote w = None ->
  path <> "" -> os_Open E path = Ok file -> json_Decode E file = Ok data ->
  exists w',
    fst (attributesHandler w r (setCustomAttributes E path st)) = Return w'
    /\ http.StatusCode w' = 200
    /\ http.body w' = http.body w +:+ default "404" (data !! vars r "key").
Proof.
  intros Hfresh Hpath Hopen Hdecode.
  unfold setCustomAttributes, attributesHandler.
  destruct (String.eqb_spec path ""); [contradiction |].
  rewrite Hopen, Hdecode. simpl.
  destruct (data !! vars r "key") as [val |]; simpl;
    eexists; (split; [reflexivity |]); unfold Fprint, Fprint_int;
    rewrite Write_fresh by exact Hfresh; split; reflexivity.
Qed.

Lemma attributes_after_load_witness :
  exists w',
    fst (attributesHandler http.NewResponseWriter (sampleRequest "" "k1" ∅)
           (setCustomAttributes sampleExternal "attrs.json" keyFileWorld)) = Return w'
    /\ http.StatusCode w' = 200
    /\ http.body w'
       = http.body http.NewResponseWriter
         +:+ default "404"
               (({[ "a" := "1"; "b" := "2" ]} : gmap string string)
                  !! vars (sampleRequest "" "k1" ∅) "key").
Proof.
  apply (attributes_after_load sampleExternal "attrs.json" attrsJSON);
    [reflexivity | discriminate | reflexivity | reflexivity].
Defined.

(** Loads do not merge.  A second load that succeeds leaves the state the
    second file alone would have given, whatever the first load did; a
    second load that fails (no path, a file that does not open or does not
    decode) leaves the result of the first. *)
Theorem load_twice
  (E : External) (first second : string) (st : World) :
  (forall file data,
     second <> "" -> os_Open E second = Ok file -> json_Decode E file = Ok data ->
     setCustomAttributes E second (setCustomAttributes E first st)
     = setCustomAttributes E second st)
  /\ (second = ""
      \/ (exists e, os_Open E second = Err e)
      \/ (exists file e, os_Open E second = Ok file /\ json_Decode E file = Err e) ->
      setCustomAttributes E second (setCustomAttributes E first st)
      = setCustomAttributes E first st).
Proof.
  split.
  - intros file data Hpath Hopen Hdecode.
    unfold setCustomAttributes at 1 3.
    destruct (String.eqb_spec second ""); [contradiction |].
    rewrite Hopen, Hdecode.
    unfold setCustomAttributes.
    destruct (String.eqb first ""); [reflexivity |].
    destruct (os_Open E first) as [f1 | e1]; [| reflexivity].
    destruct (json_Decode E f1); reflexivity.
  - intros Hfail. unfold setCustomAttributes at 1.
    destruct Hfail as [-> | [[e He] | (file & e & Hopen & He)]].
    + reflexivity.
    + rewrite He. now destruct (String.eqb second "").
    + rewrite Hopen, He. now destruct (String.eqb second "").
Qed.

(** ** Startup, again *)

(** The override has priority over every flag: with the five variables
    set, startup succeeds whatever the flags are (impersonation without
    its identity flags, no key file), without reading a key file or
    building a token source; only the attribute file is loaded. *)
Theorem startup_override_priority
  (E : External) (env : gmap string string) (c : serverConfig) :
  isEnvironmentOverrideSet (initial env c) = true ->
  startup E env c
  = Return (setCustomAttributes E (flcustomAttributeFile c) (initial env c)).
Proof. intros Hov. unfold startup, resolve. now rewrite Hov. Qed.

Lemma startup_override_priority_witness :
  startup sampleExternal overrideEnv bareImpersonationConfig
  = Return (setCustomAttributes sampleExternal
              (flcustomAttributeFile bareImpersonationConfig)
              (initial overrideEnv bareImpersonationConfig)).
Proof. apply startup_override_priority. reflexivity. Defined.

(** Startup never panics.  When it ends the process the override is
    inactive and the exit code tells why: -1 for a missing argument (an
    identity flag under impersonation, the key file otherwise), 1 for
    credentials that cannot be built (the impersonated token source, or a
    key file that cannot be read or parsed). *)
Theorem startup_exit_codes
  (E : External) (env : gmap string string) (c : serverConfig) :
  startup E env c <> Panic
  /\ forall code, startup E env c = Exit code ->
       isEnvironmentOverrideSet (initial env c) = false
       /\ ((code = -1
            /\ if flImpersonate c
               then flnumericProjectID c = "" \/ flprojectID c = ""
                    \/ flserviceAccountEmail c = ""
               else flserviAccountFile c = "")
           \/ (code = 1
               /\ if flImpersonate c
                  then exists e,
                         impersonate_CredentialsTokenSource E (flserviceAccountEmail c)
                           (Split (fltokenScopes c) ",") = Some e
                  else (exists e, ioutil_ReadFile E (flserviAccountFile c) = Err e)
                       \/ (exists data e,
                             ioutil_ReadFile E (flserviAccountFile c) = Ok data
                             /\ google_CredentialsFromJSON E data
                                  (Split (fltokenScopes c) ",") = Err e))).
Proof.
  unfold startup, resolve.
  destruct (isEnvironmentOverrideSet (initial env c)); [split; discriminate |].
  simpl.
  destruct (flImpersonate c).
  - destruct (String.eqb_spec (flnumericProjectID c) ""); simpl.
    { split; [discriminate |]. intros code Heq. injection Heq as <-.
      split; [reflexivity |]. left. auto. }
    destruct (String.eqb_spec (flprojectID c) ""); simpl.
    { split; [discriminate |]. intros code Heq. injection Heq as <-.
      split; [reflexivity |]. left. auto. }
    destruct (String.eqb_spec (flserviceAccountEmail c) ""); simpl.
    { split; [discriminate |]. intros code Heq. injection Heq as <-.
      split; [reflexivity |]. left. auto. }
    destruct (impersonate_CredentialsTokenSource E _ _) as [e |] eqn:Hts.
    + split; [discriminate |]. intros code Heq. injection Heq as <-.
      split; [reflexivity |]. right. eauto.
    + split; discriminate.
  - destruct (String.eqb_spec (flserviAccountFile c) ""); simpl.
    { split; [discriminate |]. intros code Heq. injection Heq as <-.
      split; [reflexivity |]. left. auto. }
    destruct (ioutil_ReadFile E (flserviAccountFile c)) as [data | e] eqn:Hread.
    + destruct (google_CredentialsFromJSON E data _) as [pid | e] eqn:Hparse.
      * split; discriminate.
      * split; [discriminate |]. intros code Heq. injection Heq as <-.
        split; [reflexivity |]. right. split; [reflexivity |]. right. eauto.
    + split; [discriminate |]. intros code Heq. injection Heq as <-.
      split; [reflexivity |]. right. split; [reflexivity |]. left. eauto.
Qed.

(** ** The environment without the override *)



(** ** Errors of the token functions *)

(** Without the override, [getIDToken] hides why a token source could not
    be built (the error is always [unable to get id_token], and the source
    is not asked for a token), passes an error of the fetch on as it is,
    and on success returns the [AccessToken] field of what the source
    returned. *)
Theorem getIDToken_errors
  (E : External) (targetAudience : string) (w : World) (c : google.Credentials) :
  isEnvironmentOverrideSet w = false -> creds w = Some c ->
  let src :=
    if flImpersonate (cfg w)
    then oauth2.ImpersonatedIDToken (flserviceAccountEmail (cfg w)) targetAudience true
    else oauth2.JSONIDToken targetAudience (google.JSON c) in
  let n := length (calls w) in
  (forall e, provider_NewTokenSource E src n = Some e ->
     fst (getIDToken E targetAudience w) = Return ("", Some "unable to get id_token")
     /\ calls (snd (getIDToken E targetAudience w))
        = (calls w ++ [CallNewTokenSource src])%list)
  /\ (forall e, provider_NewTokenSource E src n = None ->
        provider_Token E src (S n) = Err e ->
        fst (getIDToken E targetAudience w) = Return ("", Some e))
  /\ (forall tok, provider_NewTokenSource E src n = None ->
        provider_Token E src (S n) = Ok tok ->
        fst (getIDToken E targetAudience w) = Return (oauth2.AccessToken tok, None)).
Proof.
  intros Hov Hc. cbv zeta. unfold getIDToken, getIDToken_body.
  rewrite isEnvironmentOverrideSet_Lock, Hov.
  change (cfg (Lock w)) with (cfg w). change (creds (Lock w)) with (creds w).
  change (calls (Lock w)) with (calls w). rewrite Hc.
  assert (Hlen : forall x : Call, length (calls w ++ [x]) = S (length (calls w))).
  { intros x. rewrite length_app. simpl. lia. }
  destruct (flImpersonate (cfg w)); cbv zeta;
    (split; [| split]);
    [ intros e ->; split; reflexivity
    | intros e -> Htok; simpl; rewrite Hlen, Htok; reflexivity
    | intros tok -> Htok; simpl; rewrite Hlen, Htok; reflexivity
    | intros e ->; split; reflexivity
    | intros e -> Htok; simpl; rewrite Hlen, Htok; reflexivity
    | intros tok -> Htok; simpl; rewrite Hlen, Htok; reflexivity ].
Qed.

Lemma getIDToken_errors_witness :
  fst (getIDToken sampleExternal "https://a.example" keyFileWorld)
  = Return ("idtoken:https://a.example", None).
Proof.
  pose proof (getIDToken_errors sampleExternal "https://a.example" keyFileWorld
                keyFileCredentials eq_refl eq_refl) as Hcases.
  cbv zeta in Hcases. destruct Hcases as (_ & _ & Hok).
  apply (Hok {| oauth2.AccessToken := "idtoken:https://a.example";
                oauth2.TokenType := "Bearer";
                oauth2.Expiry := sampleNow + 3600 * time.Second |}); reflexivity.
Defined.

(** When the source of the resolved credentials fails, [getAccessToken]
    returns that error as it is together with an empty token; the
    credentials stay in place and the mutex is released. *)
Theorem getAccessToken_provider_error
  (E : External) (w : World) (c : google.Credentials) (e : error) :
  isEnvironmentOverrideSet w = false -> creds w = Some c ->
  fst (Token E (google.TokenSource c) (Lock w)) = Err e ->
  fst (getAccessToken E w)
  = Return ({| AccessToken := ""; ExpiresIn := 0; TokenType := "" |}, Some e)
  /\ creds (snd (getAccessToken E w)) = Some c
  /\ tokenMutex (snd (getAccessToken E w)) = false.
Proof.
  intros Hov Hc Herr.
  pose proof (getAccessToken_frame E w) as (_ & _ & _ & Hsame).
  cbv zeta in Hsame.
  split; [| split; [rewrite Hsame by assumption; exact Hc | apply getAccessToken_unlocks]].
  rewrite (getAccessToken_resolved E w c) by assumption.
  destruct (Token E (google.TokenSource c) (Lock w)) as [[t | err] w1];
    simpl in Herr; [discriminate |].
  now injection Herr as ->.
Qed.

Lemma getAccessToken_provider_error_witness :
  fst (getAccessToken failingExternal keyFileWorld)
  = Return ({| AccessToken := ""; ExpiresIn := 0; TokenType := "" |},
            Some "oauth2: cannot fetch token")
  /\ creds (snd (getAccessToken failingExternal keyFileWorld)) = Some keyFileCredentials
  /\ tokenMutex (snd (getAccessToken failingExternal keyFileWorld)) = false.
Proof.
  apply (getAccessToken_provider_error failingExternal keyFileWorld keyFileCredentials);
    reflexivity.
Defined.

(** Away from the two ends of its range, a duration rounded to the second
    is within half a second of the duration. *)
Lemma Round_Second_nearest (d : time.Duration) :
  - 9223372035854775808 <= d <= 9223372035854775807 ->
  2 * Z.abs (time.SecondsInt (time.Round d time.Second) * time.Second - d)
  <= time.Second.
Proof.
  intros Hd.
  unfold time.Round, time.SecondsInt, time.lessThanHalf, time.wrap64,
    time.minDuration, time.maxDuration, time.Second.
  int64_consts. cbv zeta. change (1000000000 <=? 0) with false. cbv iota.
  repeat match goal with
         | |- context [?a <? ?b] => destruct (Z.ltb_spec a b)
         end;
    Z.quot_rem_to_equations; Z.div_mod_to_equations; lia.
Qed.

(** When the token of the resolved credentials expires within about 292
    years of the present time, either way, [getAccessToken] passes its
    access token and type on unchanged and reports as [ExpiresIn] a whole
    number of seconds that differs from the exact time left by at most
    half a second. *)
Theorem access_token_seconds_are_nearest
  (E : External) (w w1 : World) (c : google.Credentials) (t : oauth2.Token) :
  isEnvironmentOverrideSet w = false -> creds w = Some c ->
  Token E (google.TokenSource c) (Lock w) = (Ok t, w1) ->
  Z.abs (oauth2.Expiry t - Now E w1) <= 9223372035854775807 ->
  exists tok,
    fst (getAccessToken E w) = Return (tok, None)
    /\ AccessToken tok = oauth2.AccessToken t
    /\ TokenType tok = oauth2.TokenType t
    /\ 2 * Z.abs (ExpiresIn tok * 1000000000 - (oauth2.Expiry t - Now E w1))
       <= 1000000000.
Proof.
  intros Hov Hc Htok Hrange.
  rewrite (getAccessToken_resolved E w c) by assumption. rewrite Htok.
  eexists. split; [reflexivity |]. simpl. split; [reflexivity |]. split; [reflexivity |].
  assert (Hsub : time.Sub (oauth2.Expiry t) (Now E w1) = oauth2.Expiry t - Now E w1).
  { unfold time.Sub, time.minDuration, time.maxDuration. int64_consts.
    repeat match goal with
           | |- context [?a <? ?b] => destruct (Z.ltb_spec a b)
           end; lia. }
  rewrite Hsub. apply Round_Second_nearest. lia.
Qed.

Lemma access_token_seconds_are_nearest_witness :
  exists tok,
    fst (getAccessToken sampleExternal keyFileWorld) = Return (tok, None)
    /\ AccessToken tok = "ya29.provider"
    /\ TokenType tok = "Bearer"
    /\ 2 * Z.abs (ExpiresIn tok * 1000000000
                  - (sampleNow + 3600 * time.Second
                     - Now sampleExternal
                         (record_call
                            (CallToken (oauth2.JSONCredentials keyJSON ["scope1"; "scope2"]))
                            (Lock keyFileWorld))))
       <= 1000000000.
Proof.
  apply (access_token_seconds_are_nearest sampleExternal keyFileWorld
           (record_call (CallToken (oauth2.JSONCredentials keyJSON ["scope1"; "scope2"]))
              (Lock keyFileWorld))
           keyFileCredentials
           {| oauth2.AccessToken := "ya29.provider";
              oauth2.TokenType := "Bearer";
              oauth2.Expiry := sampleNow + 3600 * time.Second |});
    [reflexivity | reflexivity | reflexivity | vm_compute; discriminate].
Defined.

(** ** Progress of concurrent requests *)



